(** * BambooAI question/answer retrieval cache: [bambooai/qa_retrieval.py]

    A shallow embedding of [PineconeWrapper] (the retrieval and admission
    logic around an embedding client and a Pinecone index) and the
    properties its specification states about it.

    Conventions of the embedding:
    - a Python [str] is a Rocq [string] holding its UTF-8 bytes, so that
      [question.encode()] is the list of the string's bytes;
    - ranks are integers ([Z]); [int(new_rank)] is the identity on them;
    - similarity scores, thresholds and embedding values are Python floats,
      that is binary64 floats ([float]), NaN and the infinities included,
      compared with the float [<] as the source compares them;
    - the Pinecone index is a finite map from ids to (values, metadata);
      [index.query] is an oracle over the index contents and the query
      vector, about which nothing is assumed;
    - the embedding client is a function from the question to a vector,
      or to a failure (the call raises);
    - every call to a collaborator and every message handed to
      [output_handler] is appended to a trace. *)

From Stdlib Require Import ZArith Floats String Ascii List Lia.
From stdpp Require Import gmap strings.
Import ListNotations.

Local Open Scope Z_scope.
Set Warnings "-inexact-float".

(** ** [hashlib.sha256]: SHA-256 over bytes (FIPS 180-4), 32-bit words as [Z] *)

Module SHA256.

Definition mask32 : Z := 4294967295.

Definition add32 (x y : Z) : Z := (x + y) mod 4294967296.

Definition rotr (n x : Z) : Z :=
  Z.lor (Z.shiftr x n) (Z.land (Z.shiftl x (32 - n)) mask32).

Definition shr (n x : Z) : Z := Z.shiftr x n.

Definition not32 (x : Z) : Z := Z.lxor x mask32.

Definition Ch (x y z : Z) : Z := Z.lxor (Z.land x y) (Z.land (not32 x) z).

Definition Maj (x y z : Z) : Z :=
  Z.lxor (Z.lxor (Z.land x y) (Z.land x z)) (Z.land y z).

Definition Sigma0 (x : Z) : Z := Z.lxor (Z.lxor (rotr 2 x) (rotr 13 x)) (rotr 22 x).
Definition Sigma1 (x : Z) : Z := Z.lxor (Z.lxor (rotr 6 x) (rotr 11 x)) (rotr 25 x).
Definition sigma0 (x : Z) : Z := Z.lxor (Z.lxor (rotr 7 x) (rotr 18 x)) (shr 3 x).
Definition sigma1 (x : Z) : Z := Z.lxor (Z.lxor (rotr 17 x) (rotr 19 x)) (shr 10 x).

(** The constants are what FIPS 180-4 says they are: the first 32 bits of
    the fractional parts of the cube roots (round constants) and of the
    square roots (initial hash value) of the first primes. *)
Definition is_prime (n : Z) : bool :=
  forallb (fun d => negb (n mod Z.of_nat d =? 0)) (seq 2 (Z.to_nat n - 2)).

Definition primes : list Z :=
  filter is_prime (map Z.of_nat (seq 2 310)).

(** The greatest [r] between [lo] and [hi] whose cube is at most [n]. *)
Fixpoint cube_root_between (fuel : nat) (n lo hi : Z) : Z :=
  match fuel with
  | O => lo
  | S fuel' =>
      if hi - lo <=? 1 then lo
      else
        let mid := (lo + hi) / 2 in
        if mid * mid * mid <=? n
        then cube_root_between fuel' n mid hi
        else cube_root_between fuel' n lo mid
  end.

Definition frac32_cbrt (p : Z) : Z :=
  cube_root_between 48 (p * 2 ^ 96) 0 (2 ^ 36) mod 2 ^ 32.

Definition frac32_sqrt (p : Z) : Z := Z.sqrt (p * 2 ^ 64) mod 2 ^ 32.

Definition K : list Z := Eval vm_compute in map frac32_cbrt primes.

Definition H0 : list Z := Eval vm_compute in map frac32_sqrt (firstn 8 primes).

(** Big-endian bytes of a non-negative integer, [n] bytes wide. *)
Fixpoint be_bytes (n : nat) (x : Z) : list Z :=
  match n with
  | O => []
  | S n' => be_bytes n' (Z.shiftr x 8) ++ [Z.land x 255]
  end.

Definition be_word (bs : list Z) : Z :=
  fold_left (fun acc b => acc * 256 + b) bs 0.

(** Padding: the bit 1, zero bits up to 56 mod 64 bytes, the bit length on
    eight bytes. *)
Definition pad (msg : list Z) : list Z :=
  let len := Z.of_nat (length msg) in
  let zeros := Z.to_nat ((55 - len) mod 64) in
  msg ++ [128] ++ repeat 0 zeros ++ be_bytes 8 (8 * len).

Fixpoint chunks (fuel size : nat) (l : list Z) : list (list Z) :=
  match fuel, l with
  | O, _ | _, [] => []
  | S fuel', _ => firstn size l :: chunks fuel' size (skipn size l)
  end.

(** The message schedule, most recent word first while it is built. *)
Fixpoint extend (n : nat) (rev_w : list Z) : list Z :=
  match n with
  | O => rev_w
  | S n' =>
      let at_ i := nth i rev_w 0 in
      let wt := add32 (add32 (sigma1 (at_ 1%nat)) (at_ 6%nat))
                      (add32 (sigma0 (at_ 14%nat)) (at_ 15%nat)) in
      extend n' (wt :: rev_w)
  end.

Definition schedule (blk : list Z) : list Z :=
  rev (extend 48 (rev (map be_word (chunks 16 4 blk)))).

Definition round (st : list Z) (kw : Z * Z) : list Z :=
  match st with
  | [a; b; c; d; e; f; g; h] =>
      let t1 := add32 (add32 (add32 h (Sigma1 e)) (add32 (Ch e f g) (fst kw))) (snd kw) in
      let t2 := add32 (Sigma0 a) (Maj a b c) in
      [add32 t1 t2; a; b; c; add32 d t1; e; f; g]
  | _ => st
  end.

Definition compress (h : list Z) (blk : list Z) : list Z :=
  let out := fold_left round (combine K (schedule blk)) h in
  map (fun p => add32 (fst p) (snd p)) (combine h out).

Definition digest (msg : list Z) : list Z :=
  let padded := pad msg in
  let h := fold_left compress (chunks (length padded) 64 padded) H0 in
  concat (map (be_bytes 4) h).

Definition hex_digit (d : Z) : ascii :=
  ascii_of_N (Z.to_N (if d <? 10 then 48 + d else 87 + d)).

Fixpoint hex (bs : list Z) : string :=
  match bs with
  | [] => EmptyString
  | b :: bs' => String (hex_digit (Z.shiftr b 4)) (String (hex_digit (Z.land b 15)) (hex bs'))
  end.

(** [str.encode()]: the bytes of the string. *)
Definition encode (s : string) : list Z :=
  map (fun c => Z.of_N (N_of_ascii c)) (list_ascii_of_string s).

(** [hashlib.sha256(b).hexdigest()] *)
Definition hexdigest (msg : list Z) : string := hex (digest msg).

End SHA256.

(** ** The data the index holds *)

(** An embedding: [response.data[0].embedding], a list of numbers. *)
Abbreviation Vector := (list float).

(** The metadata dictionary built in [add_record]. *)
Record Metadata := {
  plan : string;
  df_col : list string;
  question_txt : string;
  code : string;
  rank : Z
}.

(** One element of [results['matches']]: [match['id']], [match['score']]. *)
Record Match := { m_id : string; m_score : float }.

(** One element of [fetched_data['vectors']]: the id, the values, the
    metadata. *)
Record VectorData := {
  vd_id : string;
  vd_values : Vector;
  vd_metadata : Metadata
}.

(** What the embedding client or the index raise. *)
Inductive Exn := Exception (what : string).

(** The messages handed to [output_handler.display_system_messages]. *)
Inductive Message :=
| NoMatchingRecord
| NoDataForId
| ClosestMatch (id : string) (score : float)
| ScoreBelowThreshold (score threshold : float)
| ColumnsDoNotMatch
| RankBelowThreshold
| AddedUpdated (id : string)
| ExistingRankRetained (vector_rank : Z).

(** What a call does to the outside: the collaborators' calls in order. *)
Inductive Event :=
| Vectorize (question : string)
| Query (v : Vector)
| Fetch (id : string)
| Upsert (id : string) (v : Vector) (md : Metadata)
| Display (msg : Message).

(** The state the calls run in: the contents of the Pinecone index and the
    trace of events so far. *)
Record World := {
  index : gmap string (Vector * Metadata);
  trace : list Event
}.

(** ** The embedding client interface *)

(** [EmbeddingClientIntegration]: [vectorize] returns the embedding or
    raises. *)
Class EmbeddingClientIntegration (C : Type) := {
  vectorize : C -> string -> Exn + Vector
}.

(** A client given by its answers, standing for [OpenAIEmbeddingClient] and
    [HFSentenceTransformersClient], whose answers come from a service. *)
Record TableClient := { answers : string -> Exn + Vector }.

#[export] Instance TableClient_integration : EmbeddingClientIntegration TableClient :=
  {| vectorize := answers |}.

(** [self]: the embedding client, and the index's answer to a top-1 query
    as a function of its contents and the query vector. *)
Record PineconeWrapper (C : Type) := {
  embedding_client : C;
  index_search : gmap string (Vector * Metadata) -> Vector -> list Match
}.
Arguments embedding_client {C} _.
Arguments index_search {C} _ _ _.

(** ** State and exceptions *)

Definition M (A : Type) : Type := World -> (Exn + A) * World.

Definition ret {A} (a : A) : M A := fun w => (inr a, w).

Definition raise {A} (e : Exn) : M A := fun w => (inl e, w).

Definition bind {A B} (m : M A) (k : A -> M B) : M B :=
  fun w =>
    match m w with
    | (inl e, w') => (inl e, w')
    | (inr a, w') => k a w'
    end.

Declare Scope m_scope.
Delimit Scope m_scope with M.
Notation "'let*' x ':=' c 'in' k" := (bind c (fun x => k))
  (at level 10, x name, c at level 100, k at level 200) : m_scope.
Notation "c '>>' k" := (bind c (fun _ => k))
  (at level 100, k at level 200, right associativity) : m_scope.

Definition emit (ev : Event) : M unit :=
  fun w => (inr tt, {| index := index w; trace := trace w ++ [ev] |}).

Definition display_system_messages (msg : Message) : M unit := emit (Display msg).

(** [self.index.query(vector=v, top_k=1, include_values=True).get('matches', [])] *)
Definition index_query {C} (self : PineconeWrapper C) (v : Vector) : M (list Match) :=
  fun w => (inr (index_search self (index w) v),
            {| index := index w; trace := trace w ++ [Query v] |}).

(** [self.index.fetch(ids=[id]).get('vectors', {}).get(id, {})]: [None]
    stands for the empty dictionary. *)
Definition index_fetch (id : string) : M (option VectorData) :=
  fun w => (inr (match index w !! id with
                 | Some (vals, md) =>
                     Some {| vd_id := id; vd_values := vals; vd_metadata := md |}
                 | None => None
                 end),
            {| index := index w; trace := trace w ++ [Fetch id] |}).

(** [self.index.upsert(vectors=[(id, v, md)])]: create or replace by id. *)
Definition index_upsert (id : string) (v : Vector) (md : Metadata) : M unit :=
  fun w => (inr tt,
            {| index := <[id := (v, md)]> (index w);
               trace := trace w ++ [Upsert id v md] |}).

(** ** [PineconeWrapper] *)

Section Wrapper.
Context {C : Type} `{EmbeddingClientIntegration C}.
Variable self : PineconeWrapper C.
Local Open Scope m_scope.

Definition vectorize_question (question : string) : M Vector :=
  emit (Vectorize question) >>
  match vectorize (embedding_client self) question with
  | inl e => raise e
  | inr v => ret v
  end.

Definition query_index (question : string) : M (option Match) :=
  let* vectorised_question := vectorize_question question in
  let* matches := index_query self vectorised_question in
  match matches with
  | [] => display_system_messages NoMatchingRecord >> ret None
  | m :: _ => ret (Some m)
  end.

Definition fetch_record (id : string) : M (option VectorData) :=
  let* vector_data := index_fetch id in
  match vector_data with
  | None => display_system_messages NoDataForId >> ret None
  | Some vd => ret (Some vd)
  end.

Definition check_similarity (mt : Match) (similarity_threshold : float) : M bool :=
  display_system_messages (ClosestMatch (m_id mt) (m_score mt)) >>
  if (m_score mt <? similarity_threshold)%float
  then display_system_messages (ScoreBelowThreshold (m_score mt) similarity_threshold) >>
       ret false
  else ret true.

Definition retrieve_matching_record (question : string) (df_columns : list string)
    (similarity_threshold : float) (match_df : bool) : M (option VectorData) :=
  let* mt := query_index question in
  match mt with
  | None => ret None
  | Some m =>
      let* similar := check_similarity m similarity_threshold in
      if similar then
        let* vector_data := fetch_record (m_id m) in
        match vector_data with
        | None => ret None
        | Some vd =>
            if match_df then
              if decide (df_col (vd_metadata vd) = df_columns)
              then ret (Some vd)
              else display_system_messages ColumnsDoNotMatch >> ret None
            else ret (Some vd)
        end
      else ret None
  end.

(** The id [add_record] computes for a question:
    [hashlib.sha256(question.encode()).hexdigest()]. *)
Definition record_id (question : string) : string :=
  SHA256.hexdigest (SHA256.encode question).

Arguments record_id : simpl never.

Definition add_record (question plan : string) (df_columns : list string)
    (code : string) (new_rank : Z) (similarity_threshold : float) : M unit :=
  if new_rank <? 8 then display_system_messages RankBelowThreshold
  else
    let id := record_id question in
    let* vectorised_question := vectorize_question question in
    let* vector_data :=
      retrieve_matching_record question df_columns similarity_threshold true in
    let vector_rank :=
      match vector_data with Some vd => rank (vd_metadata vd) | None => -1 end in
    let id :=
      match vector_data with Some vd => vd_id vd | None => id end in
    if vector_rank <? new_rank then
      let metadata := {| plan := plan; df_col := df_columns;
                         question_txt := question; code := code;
                         rank := new_rank |} in
      index_upsert id vectorised_question metadata >>
      display_system_messages (AddedUpdated id)
    else display_system_messages (ExistingRankRetained vector_rank).

End Wrapper.

(** ** Observations on a run *)

(** What the call returned or raised, and the state it left. *)
Definition outcome {A} (r : (Exn + A) * World) : Exn + A := fst r.
Definition after {A} (r : (Exn + A) * World) : World := snd r.

Definition is_upsert (ev : Event) : bool :=
  match ev with Upsert _ _ _ => true | _ => false end.

Definition is_vectorize (ev : Event) : bool :=
  match ev with Vectorize _ => true | _ => false end.

(** The ids written by the upserts of a trace, in order. *)
Definition upserted_ids (evs : list Event) : list string :=
  omap (fun ev => match ev with Upsert id _ _ => Some id | _ => None end) evs.

(** The rank stored under an id, when a record is stored there. *)
Definition stored_rank (idx : gmap string (Vector * Metadata)) (id : string) : option Z :=
  (fun r => rank (snd r)) <$> idx !! id.

(** Two records, under different ids, hold the same question text, one
    with each of two schemas. *)
Definition two_records_for (question : string) (cols1 cols2 : list string)
    (idx : gmap string (Vector * Metadata)) : Prop :=
  exists i j r1 r2,
    i <> j /\ idx !! i = Some r1 /\ idx !! j = Some r2 /\
    question_txt (snd r1) = question /\ df_col (snd r1) = cols1 /\
    question_txt (snd r2) = question /\ df_col (snd r2) = cols2.

(** The new metadata [add_record] builds. *)
Definition new_metadata (question plan : string) (df_columns : list string)
    (code : string) (new_rank : Z) : Metadata :=
  {| plan := plan; df_col := df_columns; question_txt := question;
     code := code; rank := new_rank |}.

(** ** Sample collaborators, to run the scenarios *)

(** A client that embeds every question as the same vector. *)
Definition constant_client (v : Vector) : TableClient :=
  {| answers := fun _ => inr v |}.

(** A client whose backend cannot be reached. *)
Definition unreachable_client : TableClient :=
  {| answers := fun _ => inl (Exception "embedding backend unreachable") |}.

Definition dot (u v : Vector) : float :=
  fold_left PrimFloat.add (zip_with PrimFloat.mul u v) 0%float.

Definition better (a b : Match) : Match :=
  if (m_score a <? m_score b)%float then b else a.

(** An index that answers a top-1 query with its record of greatest inner
    product with the query (the cosine similarity, on unit vectors). *)
Definition nearest (idx : gmap string (Vector * Metadata)) (v : Vector) : list Match :=
  match map (fun kv => {| m_id := fst kv; m_score := dot (fst (snd kv)) v |})
            (map_to_list idx) with
  | [] => []
  | m :: ms => [fold_left better ms m]
  end.

Definition sample_wrapper : PineconeWrapper TableClient :=
  {| embedding_client := constant_client [1%float; 0%float]; index_search := nearest |}.

Definition offline_wrapper : PineconeWrapper TableClient :=
  {| embedding_client := unreachable_client; index_search := nearest |}.

Definition empty_world : World := {| index := ∅; trace := [] |}.

(** A wrapper whose index answers every query with an id it no longer
    holds. *)
Definition stale_wrapper : PineconeWrapper TableClient :=
  {| embedding_client := constant_client [1%float; 0%float];
     index_search := fun _ _ => [{| m_id := "gone"; m_score := 1%float |}] |}.

Definition how_many_rows : string := "How many rows?".

(** Scenario A: the first record for a question, on an empty index. *)
Definition scenario_A : World :=
  after (add_record sample_wrapper how_many_rows "P1" ["a"; "b"] "C1" 9
           0.9%float empty_world).

(** Scenario C: the same question recorded again, for other columns, with
    rank 10. *)
Definition scenario_C : World :=
  after (add_record sample_wrapper how_many_rows "P2" ["x"; "y"] "C2" 10
           0.9%float scenario_A).

(** An index holding one record, of rank 10 for columns a and b, under the
    id of its question. *)
Definition rank_10_world : World :=
  {| index := {[ record_id how_many_rows :=
                   ([1%float; 0%float],
                    new_metadata how_many_rows "P1" ["a"; "b"] "C1" 10) ]};
     trace := [] |}.

(** ** The rank and the id a record call works with *)

(** [vector_rank]: the rank of the record the lookup found, or -1. *)
Definition vector_rank_of (found : option VectorData) : Z :=
  match found with Some vd => rank (vd_metadata vd) | None => -1 end.

(** [id]: the id of the record the lookup found, or the content hash of
    the question. *)
Definition id_of (question : string) (found : option VectorData) : string :=
  match found with Some vd => vd_id vd | None => record_id question end.

Definition is_query (ev : Event) : bool :=
  match ev with Query _ => true | _ => false end.

(** An index holding one record, of rank 9 for columns a and b, under an
    id that is not a digest. *)
Definition other_world : World :=
  {| index := {[ "r1"%string :=
                   ([1%float; 0%float],
                    new_metadata "Count the rows" "P0" ["a"; "b"] "C0" 9) ]};
     trace := [] |}.

(** The calls to the index among the events of a trace, in order. *)
Definition index_calls (evs : list Event) : list Event :=
  List.filter (fun ev => match ev with
                    | Query _ | Fetch _ | Upsert _ _ _ => true
                    | _ => false
                    end) evs.

(** The message a trace ends with, if it ends with one. *)
Definition last_message (evs : list Event) : option Message :=
  match List.last evs (Vectorize EmptyString) with
  | Display msg => Some msg
  | _ => None
  end.

(** ** The shape of an id *)

(** A lower-case hexadecimal digit, as [hexdigest] writes them. *)
Definition is_hex_digit (c : ascii) : bool :=
  existsb (Ascii.eqb c) (list_ascii_of_string "0123456789abcdef").

(** ** Construction: [__init__] and what it calls *)

Module Setup.

(** The exceptions the construction raises or catches, by class. *)
Inductive SetupError :=
| RuntimeError (msg : string)
| ValueError (msg : string)
| OpenAIError (msg : string).

(** The embedding clients [initialize_embedding_client] builds. *)
Inductive EmbeddingClient :=
| OpenAIEmbeddingClient
| HFSentenceTransformersClient.

(** What [create_index] is given: the metric, the dimension and the
    [ServerlessSpec]. *)
Record IndexSpec := {
  metric : string;
  dimension : Z;
  spec_cloud : string;
  spec_region : string
}.

Inductive SetupMessage :=
| ClientError (e : SetupError)
| CreatingIndex (index_name : string).

(** The Pinecone account the client talks to, with the messages displayed
    so far. *)
Record Account := {
  indexes : gmap string IndexSpec;
  displayed : list SetupMessage
}.

(** What the process is started with: [os.getenv('PINECONE_API_KEY')], the
    OPENAI_API_KEY variable the OpenAI client reads, and whether
    [sentence_transformers] can be imported. *)
Record Environ := {
  PINECONE_API_KEY : option string;
  OPENAI_API_KEY : option string;
  sentence_transformers_installed : bool
}.

Definition display (msg : SetupMessage) (acct : Account) : Account :=
  {| indexes := indexes acct; displayed := displayed acct ++ [msg] |}.

(** [HFSentenceTransformersClient.__init__]: the import fails with
    [ImportError] when the library is absent, which becomes a
    [RuntimeError]. *)
Definition new_HFSentenceTransformersClient (env : Environ)
    : SetupError + EmbeddingClient :=
  if sentence_transformers_installed env
  then inr HFSentenceTransformersClient
  else inl (RuntimeError "Sentence Transformers library is not installed.").

(** [OpenAIEmbeddingClient.__init__]: [OpenAI()] takes its key from
    OPENAI_API_KEY and raises [OpenAIError] when the variable is not set. *)
Definition new_OpenAIEmbeddingClient (env : Environ)
    : SetupError + EmbeddingClient :=
  match OPENAI_API_KEY env with
  | Some _ => inr OpenAIEmbeddingClient
  | None =>
      inl (OpenAIError
             "The api_key client option must be set either by passing api_key to the client or by setting the OPENAI_API_KEY environment variable")
  end.

(** [initialize_embedding_client]: the client or [None], or the exception
    raised: only the [RuntimeError] of the sentence-transformers client is
    caught. *)
Definition initialize_embedding_client (env : Environ) (embed_platform : string)
    (acct : Account) : (SetupError + option EmbeddingClient) * Account :=
  if decide (embed_platform = "openai"%string) then
    match new_OpenAIEmbeddingClient env with
    | inr c => (inr (Some c), acct)
    | inl e => (inl e, acct)
    end
  else if decide (embed_platform = "hf_sentence_transformers"%string) then
    match new_HFSentenceTransformersClient env with
    | inr c => (inr (Some c), acct)
    | inl (RuntimeError msg) =>
        (inr None, display (ClientError (RuntimeError msg)) acct)
    | inl e => (inl e, acct)
    end
  else (inl (ValueError "Unsupported embedding platform"), acct).

(** The [settings] dictionary of [determine_index_settings]. *)
Definition settings : gmap string (string * Z) :=
  {[ "hf_sentence_transformers"%string := ("bambooai-qa-retrieval"%string, 384);
     "openai"%string := ("bambooai-qa-retrieval"%string, 1536) ]}.

(** [settings.get(self.embed_platform, (None, None))] *)
Definition determine_index_settings (embed_platform : string)
    : option string * option Z :=
  match settings !! embed_platform with
  | Some (name, dim) => (Some name, Some dim)
  | None => (None, None)
  end.

(** [ensure_index_exists], on the attributes it reads. *)
Definition ensure_index_exists (index_name : string) (dim : Z)
    (cloud env : string) (acct : Account) : Account :=
  match indexes acct !! index_name with
  | None =>
      let acct' := display (CreatingIndex index_name) acct in
      {| indexes :=
           <[index_name := {| metric := "cosine"; dimension := dim;
                              spec_cloud := cloud; spec_region := env |}]>
             (indexes acct');
         displayed := displayed acct' |}
  | Some _ => acct
  end.

(** The attributes of the object [__init__] leaves. *)
Inductive Constructed :=
| HalfInitialised (api_key : option string)
| Initialised (api_key cloud env embed_platform : string)
    (embedding_client : option EmbeddingClient)
    (index_name : string) (dim : Z).

Definition empty_account : Account := {| indexes := ∅; displayed := [] |}.

(** [PineconeWrapper.__init__]. [Pinecone(api_key=...)] only keeps the key,
    which is not empty here, and the Pinecone service is taken to answer
    the calls made to it. A platform without settings would hand [None] to
    [create_index] as the name, which Pinecone refuses. *)
Definition init (environ : Environ) (acct : Account)
    : (SetupError + Constructed) * Account :=
  match PINECONE_API_KEY environ with
  | None => (inr (HalfInitialised None), acct)
  | Some EmptyString => (inr (HalfInitialised (Some EmptyString)), acct)
  | Some api_key =>
      let cloud := "aws"%string in
      let env := "us-east-1"%string in
      let embed_platform := "openai"%string in
      match initialize_embedding_client environ embed_platform acct with
      | (inl e, acct1) => (inl e, acct1)
      | (inr embedding_client, acct1) =>
          match determine_index_settings embed_platform with
          | (Some index_name, Some dim) =>
              (inr (Initialised api_key cloud env embed_platform
                      embedding_client index_name dim),
               ensure_index_exists index_name dim cloud env acct1)
          | _ => (inl (ValueError "create_index: no index name"), acct1)
          end
      end
  end.

End Setup.

(** ** Stepping through the calls *)

Ltac unfold_calls :=
  unfold add_record, retrieve_matching_record, query_index, fetch_record,
    check_similarity, vectorize_question, index_query, index_fetch,
    index_upsert, display_system_messages, emit, bind, ret, raise,
    outcome, after.

Ltac case_step :=
  match goal with
  | |- context [vectorize ?c ?q] => destruct (vectorize c q) eqn:?
  | |- context [index_search ?s ?i ?v] => destruct (index_search s i v) eqn:?
  | |- context [PrimFloat.ltb ?a ?b] => destruct (PrimFloat.ltb a b) eqn:?
  | |- context [@lookup _ _ _ _ ?k ?m] => destruct (m !! k) as [[? ?]|] eqn:?
  | |- context [decide ?P] => destruct (decide P)
  | |- context [if ?b then _ else _] => is_var b; destruct b
  end.

Ltac step_calls := unfold_calls; simpl; repeat (case_step; simpl).

(** ** The digest on the standard test vectors *)

Example sha256_empty :
  SHA256.hexdigest (SHA256.encode "") =
  "e3b0c44298fc1c149afbf4c8996fb92427ae41e4649b934ca495991b7852b855"%string.
Proof. vm_compute. reflexivity. Qed.

Example sha256_abc :
  SHA256.hexdigest (SHA256.encode "abc") =
  "ba7816bf8f01cfea414140de5dae2223b00361a396177a9cb410ff61f20015ad"%string.
Proof. vm_compute. reflexivity. Qed.

Example sha256_two_blocks :
  SHA256.hexdigest
    (SHA256.encode "abcdbcdecdefdefgefghfghighijhijkijkljklmklmnlmnomnopnopq") =
  "248d6a61d20638b8e5c026930c3e6039a33ce45964ff2167f6ecedd419db06c1"%string.
Proof. vm_compute. reflexivity. Qed.

(** ** The shape of the digest *)

Lemma sha256_round_length st kw :
  length st = 8%nat -> length (SHA256.round st kw) = 8%nat.
Proof.
  intros Hlen. do 8 (destruct st as [|? st]; [discriminate|]).
  destruct st; [reflexivity | discriminate].
Qed.

Lemma sha256_rounds_length kws st :
  length st = 8%nat -> length (fold_left SHA256.round kws st) = 8%nat.
Proof.
  revert st. induction kws as [|kw kws IH]; intros st Hlen; [exact Hlen|].
  apply IH, sha256_round_length, Hlen.
Qed.

Lemma sha256_compress_length h blk :
  length h = 8%nat -> length (SHA256.compress h blk) = 8%nat.
Proof.
  intros Hlen. unfold SHA256.compress.
  rewrite List.length_map, List.length_combine, sha256_rounds_length, Hlen;
    [reflexivity | exact Hlen].
Qed.

Lemma sha256_state_length blocks h :
  length h = 8%nat -> length (fold_left SHA256.compress blocks h) = 8%nat.
Proof.
  revert h. induction blocks as [|blk blocks IH]; intros h Hlen; [exact Hlen|].
  apply IH, sha256_compress_length, Hlen.
Qed.

Lemma sha256_be_bytes_length n x : length (SHA256.be_bytes n x) = n.
Proof.
  revert x. induction n as [|n IH]; intros x; [reflexivity|].
  cbn [SHA256.be_bytes]. rewrite List.length_app, IH. cbn [length]. lia.
Qed.

Lemma sha256_be_bytes_range n x :
  Forall (fun b => 0 <= b < 256) (SHA256.be_bytes n x).
Proof.
  revert x. induction n as [|n IH]; intros x; [constructor|].
  cbn [SHA256.be_bytes]. apply Forall_app. split; [apply IH|].
  constructor; [|constructor].
  change 255 with (Z.ones 8). rewrite Z.land_ones by lia.
  apply Z.mod_pos_bound. lia.
Qed.

Lemma sha256_words_bytes (h : list Z) :
  length (concat (map (SHA256.be_bytes 4) h)) = (4 * length h)%nat /\
  Forall (fun b => 0 <= b < 256) (concat (map (SHA256.be_bytes 4) h)).
Proof.
  induction h as [|x h [IHlen IHrange]]; [split; [reflexivity | constructor]|].
  cbn [map concat]. split.
  - rewrite List.length_app, IHlen, sha256_be_bytes_length. cbn [length]. lia.
  - apply Forall_app. split; [apply sha256_be_bytes_range | exact IHrange].
Qed.

Lemma sha256_digest_bytes msg :
  length (SHA256.digest msg) = 32%nat /\
  Forall (fun b => 0 <= b < 256) (SHA256.digest msg).
Proof.
  unfold SHA256.digest. cbv zeta.
  destruct (sha256_words_bytes
              (fold_left SHA256.compress
                 (SHA256.chunks (length (SHA256.pad msg)) 64 (SHA256.pad msg))
                 SHA256.H0)) as [Hlen Hrange].
  split; [|exact Hrange].
  rewrite Hlen, sha256_state_length; reflexivity.
Qed.

Lemma sha256_hex_digit d :
  0 <= d < 16 -> is_hex_digit (SHA256.hex_digit d) = true.
Proof.
  intros Hd.
  assert (Hcases : d = 0 \/ d = 1 \/ d = 2 \/ d = 3 \/ d = 4 \/ d = 5 \/
                   d = 6 \/ d = 7 \/ d = 8 \/ d = 9 \/ d = 10 \/ d = 11 \/
                   d = 12 \/ d = 13 \/ d = 14 \/ d = 15) by lia.
  repeat (destruct Hcases as [-> | Hcases]; [reflexivity|]).
  subst d. reflexivity.
Qed.

Lemma sha256_hex_shape bs :
  Forall (fun b => 0 <= b < 256) bs ->
  String.length (SHA256.hex bs) = (2 * length bs)%nat /\
  Forall (fun c => is_hex_digit c = true) (list_ascii_of_string (SHA256.hex bs)).
Proof.
  induction 1 as [|b bs Hb _ [IHlen IHhex]]; [split; [reflexivity | constructor]|].
  cbn [SHA256.hex String.length list_ascii_of_string length]. split.
  - rewrite IHlen. lia.
  - constructor; [|constructor; [|exact IHhex]].
    + apply sha256_hex_digit. rewrite Z.shiftr_div_pow2 by lia.
      change (2 ^ 4) with 16. split; [apply Z.div_pos; lia|].
      apply Z.div_lt_upper_bound; lia.
    + apply sha256_hex_digit. change 15 with (Z.ones 4).
      rewrite Z.land_ones by lia. apply Z.mod_pos_bound. lia.
Qed.

(** X1. The id of a record is 64 characters long, each one a lower-case
    hexadecimal digit, whatever the question (the empty one included). *)
Theorem record_id_shape (question : string) :
  String.length (record_id question) = 64%nat /\
  Forall (fun c => is_hex_digit c = true)
    (list_ascii_of_string (record_id question)).
Proof.
  unfold record_id, SHA256.hexdigest.
  destruct (sha256_digest_bytes (SHA256.encode question)) as [Hlen Hrange].
  destruct (sha256_hex_shape _ Hrange) as [Hhexlen Hhex].
  split; [|exact Hhex]. rewrite Hhexlen, Hlen. reflexivity.
Qed.

(** ** Comparing floats *)

Lemma SFcompare_antisym x y :
  SFcompare y x = option_map CompOpp (SFcompare x y).
Proof.
  destruct x as [sx|sx| |sx mx ex], y as [sy|sy| |sy my ey]; simpl;
    try reflexivity;
    try (destruct sx; reflexivity); try (destruct sy; reflexivity);
    try (destruct sx, sy; reflexivity).
  destruct sx, sy; simpl; try reflexivity;
    rewrite (Z.compare_antisym ex ey); destruct (ex ?= ey)%Z; simpl;
    try reflexivity;
    change (Pos.compare_cont Eq my mx) with (Pos.compare my mx);
    change (Pos.compare_cont Eq mx my) with (Pos.compare mx my);
    rewrite (Pos.compare_antisym mx my);
    destruct (Pos.compare mx my); reflexivity.
Qed.

(** A float that is not NaN compares equal to itself, and a NaN compares
    with nothing. *)
Lemma float_not_nan_compare x :
  is_nan x = false -> SFcompare (Prim2SF x) (Prim2SF x) = Some Eq.
Proof.
  unfold is_nan. rewrite FloatAxioms.eqb_spec. unfold SFeqb.
  destruct (SFcompare (Prim2SF x) (Prim2SF x)) as [[| |]|]; simpl; congruence.
Qed.

Lemma float_nan_spec x : is_nan x = true -> Prim2SF x = S754_nan.
Proof.
  unfold is_nan. rewrite FloatAxioms.eqb_spec. unfold SFeqb.
  destruct (Prim2SF x) as [sx|sx| |sx mx ex]; unfold SFcompare;
    try (destruct sx; discriminate); try reflexivity.
  rewrite Z.compare_refl.
  change (Pos.compare_cont Eq mx mx) with (Pos.compare mx mx).
  rewrite Pos.compare_refl. destruct sx; discriminate.
Qed.

Lemma float_nan_ltb_l x y : is_nan x = true -> (x <? y)%float = false.
Proof.
  intros Hx. rewrite FloatAxioms.ltb_spec, (float_nan_spec x Hx). reflexivity.
Qed.

Lemma float_nan_ltb_r x y : is_nan y = true -> (x <? y)%float = false.
Proof.
  intros Hy. rewrite FloatAxioms.ltb_spec, (float_nan_spec y Hy).
  unfold SFltb. now destruct (Prim2SF x).
Qed.

(** Away from NaN, [x < y] fails exactly when [y <= x] holds. *)
Lemma float_ltb_false_leb x y :
  is_nan x = false -> is_nan y = false ->
  (x <? y)%float = false <-> (y <=? x)%float = true.
Proof.
  intros Hx Hy. apply float_not_nan_compare in Hx, Hy.
  rewrite FloatAxioms.ltb_spec, FloatAxioms.leb_spec. unfold SFltb, SFleb.
  rewrite (SFcompare_antisym (Prim2SF x) (Prim2SF y)).
  destruct (SFcompare (Prim2SF x) (Prim2SF y)) as [c|] eqn:Hc.
  - destruct c; simpl; intuition congruence.
  - exfalso.
    destruct (Prim2SF x) as [sx|sx| |sx mx ex], (Prim2SF y) as [sy|sy| |sy my ey];
      simpl in *; discriminate.
Qed.

Lemma float_eqb_not_ltb x y : (x =? y)%float = true -> (x <? y)%float = false.
Proof.
  rewrite FloatAxioms.eqb_spec, FloatAxioms.ltb_spec. unfold SFeqb, SFltb.
  destruct (SFcompare (Prim2SF x) (Prim2SF y)) as [[| |]|]; congruence.
Qed.

Section Calls.
Context {C : Type} `{EmbeddingClientIntegration C}.
Variable self : PineconeWrapper C.

Lemma vectorize_question_raises question e w :
  vectorize (embedding_client self) question = inl e ->
  vectorize_question self question w =
    (inl e, {| index := index w; trace := trace w ++ [Vectorize question] |}).
Proof. intros Hv. unfold_calls. now rewrite Hv. Qed.

Lemma vectorize_question_returns question v w :
  vectorize (embedding_client self) question = inr v ->
  vectorize_question self question w =
    (inr v, {| index := index w; trace := trace w ++ [Vectorize question] |}).
Proof. intros Hv. unfold_calls. now rewrite Hv. Qed.

(** The lookup leaves the index as it found it and only extends the trace,
    with no upsert. *)
Lemma retrieve_frame question df_columns thr match_df w :
  exists evs,
    after (retrieve_matching_record self question df_columns thr match_df w) =
      {| index := index w; trace := trace w ++ evs |} /\
    upserted_ids evs = [].
Proof.
  step_calls; rewrite <- ?app_assoc; simpl; eexists; (split; reflexivity).
Qed.

(** What the lookup returns depends on the index, not on the trace. *)
Lemma retrieve_outcome_index question df_columns thr match_df w1 w2 :
  index w1 = index w2 ->
  outcome (retrieve_matching_record self question df_columns thr match_df w1) =
  outcome (retrieve_matching_record self question df_columns thr match_df w2).
Proof.
  intros Hi. unfold_calls. simpl. rewrite Hi.
  repeat (case_step; simpl); reflexivity.
Qed.

(** A record the lookup returns is the one the index holds under the id of
    the top match, which passed the similarity gate and, when asked, the
    schema gate. *)
Lemma retrieve_found_inv question df_columns thr match_df w vd :
  outcome (retrieve_matching_record self question df_columns thr match_df w) =
    inr (Some vd) ->
  exists v mt ms,
    vectorize (embedding_client self) question = inr v /\
    index_search self (index w) v = mt :: ms /\
    (m_score mt <? thr)%float = false /\
    vd_id vd = m_id mt /\
    index w !! m_id mt = Some (vd_values vd, vd_metadata vd) /\
    (match_df = true -> df_col (vd_metadata vd) = df_columns).
Proof.
  step_calls; intros Hr; try discriminate;
    injection Hr as <-; simpl;
    do 3 eexists; repeat split; eauto; discriminate.
Qed.

(** Past the floor and the embedding, [add_record] is decided by what its
    lookup returned: the rank and id it compares and writes with. *)
Lemma add_record_run question plan df_columns code new_rank thr w v found :
  8 <= new_rank ->
  vectorize (embedding_client self) question = inr v ->
  outcome (retrieve_matching_record self question df_columns thr true w) =
    inr found ->
  let vector_rank :=
    match found with Some vd => rank (vd_metadata vd) | None => -1 end in
  let id :=
    match found with Some vd => vd_id vd | None => record_id question end in
  let r := add_record self question plan df_columns code new_rank thr w in
  outcome r = inr tt /\
  index (after r) =
    (if vector_rank <? new_rank
     then <[id := (v, new_metadata question plan df_columns code new_rank)]> (index w)
     else index w) /\
  exists evs,
    trace (after r) = trace w ++ evs /\
    upserted_ids evs = if vector_rank <? new_rank then [id] else [].
Proof.
  intros Hfloor Hv. cbv zeta. unfold add_record.
  destruct (Z.ltb_spec new_rank 8) as [|_]; [lia|].
  unfold_calls. simpl. rewrite !Hv. simpl.
  repeat (case_step; simpl); intros Hfound; try discriminate;
    injection Hfound as <-; simpl;
    destruct (_ <? new_rank); simpl;
    (split; [reflexivity | split; [reflexivity|]]);
    eexists; (split; [rewrite <- ?app_assoc; simpl; reflexivity | reflexivity]).
Qed.

End Calls.

(** ** The gates of the lookup *)

Section Lookup.
Context {C : Type} `{EmbeddingClientIntegration C}.
Variable self : PineconeWrapper C.

(** C10. The lookup is read-only: whatever the question, the schema, the
    threshold and the [match_df] flag, and whatever it returns or raises,
    [retrieve_matching_record] leaves the contents of the index as they
    were and issues no upsert; so do [query_index], [fetch_record] and
    [check_similarity], the calls it is made of. *)
Theorem retrieve_matching_record_read_only
    question df_columns thr match_df id mt w :
  (index (after (retrieve_matching_record self question df_columns thr match_df w))
     = index w /\
   exists evs,
     trace (after (retrieve_matching_record self question df_columns thr match_df w))
       = trace w ++ evs /\
     upserted_ids evs = []) /\
  index (after (query_index self question w)) = index w /\
  index (after (fetch_record id w)) = index w /\
  index (after (check_similarity mt thr w)) = index w.
Proof.
  split.
  - destruct (retrieve_frame self question df_columns thr match_df w)
      as (evs & -> & Hevs).
    split; [reflexivity | now exists evs].
  - repeat split; step_calls; reflexivity.
Qed.

(** C9. An id the query returns but the fetch cannot find is a miss: the
    lookup returns [None], it does not raise. *)
Theorem retrieve_matching_record_missing_id
    question df_columns thr match_df w v mt ms :
  vectorize (embedding_client self) question = inr v ->
  index_search self (index w) v = mt :: ms ->
  index w !! m_id mt = None ->
  outcome (fetch_record (m_id mt) w) = inr None /\
  outcome (retrieve_matching_record self question df_columns thr match_df w)
    = inr None.
Proof.
  intros Hv Hs Hf. unfold_calls. simpl. rewrite Hv. simpl. rewrite Hs, Hf. simpl.
  split; [reflexivity|].
  destruct (_ <? _)%float; simpl; [reflexivity|]. now rewrite Hf.
Qed.

(** C4, as the code has it. The similarity gate rejects a match exactly
    when the float test [score < threshold] holds, and accepts it
    otherwise. When neither the score nor the threshold is NaN, that is:
    it accepts exactly when the score is at least the threshold. A NaN
    score or threshold is accepted, every comparison with NaN being false.
    A score equal to the threshold is accepted, and with a score below the
    threshold the lookup returns [None]. *)
Theorem check_similarity_boundary (mt : Match) (thr : float) w :
  (outcome (check_similarity mt thr w) = inr true <->
   (m_score mt <? thr)%float = false) /\
  (outcome (check_similarity mt thr w) = inr false <->
   (m_score mt <? thr)%float = true) /\
  (is_nan (m_score mt) = false -> is_nan thr = false ->
   (outcome (check_similarity mt thr w) = inr true <->
    (thr <=? m_score mt)%float = true)) /\
  (is_nan (m_score mt) = true \/ is_nan thr = true ->
   outcome (check_similarity mt thr w) = inr true) /\
  ((m_score mt =? thr)%float = true ->
   outcome (check_similarity mt thr w) = inr true) /\
  (forall question df_columns match_df v ms,
     vectorize (embedding_client self) question = inr v ->
     index_search self (index w) v = mt :: ms ->
     (m_score mt <? thr)%float = true ->
     outcome (retrieve_matching_record self question df_columns thr match_df w)
       = inr None).
Proof.
  assert (Hacc : outcome (check_similarity mt thr w) = inr true <->
                 (m_score mt <? thr)%float = false).
  { unfold_calls. simpl. destruct (_ <? _)%float; simpl;
      split; congruence. }
  assert (Hrej : outcome (check_similarity mt thr w) = inr false <->
                 (m_score mt <? thr)%float = true).
  { unfold_calls. simpl. destruct (_ <? _)%float; simpl;
      split; congruence. }
  split; [exact Hacc|]. split; [exact Hrej|]. split; [|split; [|split]].
  - intros Hs Ht. rewrite Hacc. now apply float_ltb_false_leb.
  - intros Hnan. apply Hacc. destruct Hnan as [Hnan|Hnan].
    + now apply float_nan_ltb_l.
    + now apply float_nan_ltb_r.
  - intros Heq. apply Hacc. now apply float_eqb_not_ltb.
  - intros question df_columns match_df v ms Hv Hs Hlt.
    unfold_calls. simpl. rewrite Hv. simpl. rewrite Hs. simpl.
    now rewrite Hlt.
Qed.

(** C7. The schema gate: for a record the lookup fetched for a match that
    passed the similarity gate, with [match_df] the record is returned when
    its stored [df_col] equals the caller's columns and [None] is returned
    when it differs in any way; without [match_df] the record is returned
    whatever its [df_col]. *)
Theorem retrieve_matching_record_schema_gate
    question df_columns thr w v mt ms vals md :
  vectorize (embedding_client self) question = inr v ->
  index_search self (index w) v = mt :: ms ->
  (m_score mt <? thr)%float = false ->
  index w !! m_id mt = Some (vals, md) ->
  let vd := {| vd_id := m_id mt; vd_values := vals; vd_metadata := md |} in
  (df_col md = df_columns ->
   outcome (retrieve_matching_record self question df_columns thr true w)
     = inr (Some vd)) /\
  (df_col md <> df_columns ->
   outcome (retrieve_matching_record self question df_columns thr true w)
     = inr None) /\
  (forall found,
     outcome (retrieve_matching_record self question df_columns thr true w)
       = inr (Some found) ->
     found = vd /\ df_col (vd_metadata found) = df_columns) /\
  outcome (retrieve_matching_record self question df_columns thr false w)
    = inr (Some vd).
Proof.
  intros Hv Hs Hle Hf vd.
  assert (Hrun : forall match_df,
    outcome (retrieve_matching_record self question df_columns thr match_df w) =
    if match_df then
      if decide (df_col md = df_columns) then inr (Some vd) else inr None
    else inr (Some vd)).
  { intros match_df. unfold_calls. simpl. rewrite Hv. simpl. rewrite Hs. simpl.
    rewrite Hle. simpl. rewrite Hf. simpl. destruct match_df; [|reflexivity].
    destruct (decide _); reflexivity. }
  rewrite (Hrun true), (Hrun false).
  destruct (decide (df_col md = df_columns)) as [Heq|Hne].
  - split; [reflexivity|]. split; [congruence|]. split; [|reflexivity].
    intros found Hfound. injection Hfound as <-. now split.
  - split; [congruence|]. split; [reflexivity|]. split; [|reflexivity].
    intros found Hfound. discriminate.
Qed.

End Lookup.

(** ** Recording *)

Section Record.
Context {C : Type} `{EmbeddingClientIntegration C}.
Variable self : PineconeWrapper C.

(** A lookup that returns has embedded the question. *)
Lemma retrieve_returns_vectorized question df_columns thr match_df w found :
  outcome (retrieve_matching_record self question df_columns thr match_df w)
    = inr found ->
  exists v, vectorize (embedding_client self) question = inr v.
Proof.
  unfold_calls. simpl.
  destruct (vectorize (embedding_client self) question) as [e|v]; simpl.
  - discriminate.
  - intros _. now exists v.
Qed.

(** With [match_df], the lookup finds nothing in an index none of whose
    records was stored for the caller's columns. *)
Lemma retrieve_other_columns question df_columns thr w v :
  vectorize (embedding_client self) question = inr v ->
  (forall id r, index w !! id = Some r -> df_col (snd r) <> df_columns) ->
  outcome (retrieve_matching_record self question df_columns thr true w)
    = inr None.
Proof.
  intros Hv Hcols. unfold_calls. simpl. rewrite Hv. simpl.
  repeat (case_step; simpl); try reflexivity.
  exfalso. eapply Hcols; [eassumption | assumption].
Qed.

(** Recording past the floor on an empty index stores one record, under
    the content hash of the question. *)
Lemma add_record_first question plan df_columns code new_rank thr w v :
  8 <= new_rank ->
  vectorize (embedding_client self) question = inr v ->
  index w = ∅ ->
  index (after (add_record self question plan df_columns code new_rank thr w)) =
    {[ record_id question :=
         (v, new_metadata question plan df_columns code new_rank) ]}.
Proof.
  intros Hfloor Hv Hempty.
  assert (Hnone : outcome (retrieve_matching_record self question df_columns
                             thr true w) = inr None).
  { apply (retrieve_other_columns _ _ _ _ v Hv). intros id r Hr.
    rewrite Hempty, lookup_empty in Hr. discriminate. }
  destruct (add_record_run self question plan df_columns code new_rank thr w v
              None Hfloor Hv Hnone) as (_ & Hidx & _).
  rewrite Hidx, Hempty.
  destruct (Z.ltb_spec (-1) new_rank); [|lia]. apply insert_empty.
Qed.

(** C5. The quality floor: with a rank below 8, [add_record] only displays
    its notice and returns: the index is unchanged, no embedding is asked
    for, and nothing of the call depends on the question, on the client or
    on the other arguments (no id is derived). *)
Theorem add_record_below_floor question plan df_columns code new_rank thr w :
  new_rank < 8 ->
  add_record self question plan df_columns code new_rank thr w =
    (inr tt,
     {| index := index w; trace := trace w ++ [Display RankBelowThreshold] |}) /\
  forall C' (H' : EmbeddingClientIntegration C') (self' : PineconeWrapper C')
         question' plan' df_columns' code' thr',
    add_record self' question' plan' df_columns' code' new_rank thr' w =
    add_record self question plan df_columns code new_rank thr w.
Proof.
  intros Hlow.
  assert (Hany : forall C' (H' : EmbeddingClientIntegration C')
                        (self' : PineconeWrapper C') q p c d t,
    add_record self' q p c d new_rank t w =
    (inr tt,
     {| index := index w; trace := trace w ++ [Display RankBelowThreshold] |})).
  { intros. unfold add_record.
    destruct (Z.ltb_spec new_rank 8); [reflexivity | lia]. }
  split; [apply Hany|]. intros. now rewrite !Hany.
Qed.

(** C6. Replacement by rank: when the lookup [add_record] makes (with
    [match_df]) finds a record of rank R, a new rank at most R leaves the
    index as it was, and a new rank above R stores, under the id of the
    record found, the new embedding with the new plan, columns, question,
    code and rank; an equal rank does not replace. *)
Theorem add_record_rank_replacement
    question plan df_columns code new_rank thr w vd :
  8 <= new_rank ->
  outcome (retrieve_matching_record self question df_columns thr true w)
    = inr (Some vd) ->
  exists v,
    vectorize (embedding_client self) question = inr v /\
    index w !! vd_id vd = Some (vd_values vd, vd_metadata vd) /\
    outcome (add_record self question plan df_columns code new_rank thr w)
      = inr tt /\
    (new_rank <= rank (vd_metadata vd) ->
     index (after (add_record self question plan df_columns code new_rank thr w))
       = index w) /\
    (rank (vd_metadata vd) < new_rank ->
     index (after (add_record self question plan df_columns code new_rank thr w))
       = <[vd_id vd := (v, {| plan := plan; df_col := df_columns;
                              question_txt := question; code := code;
                              rank := new_rank |})]> (index w)).
Proof.
  intros Hfloor Hfound.
  destruct (retrieve_found_inv self _ _ _ _ _ _ Hfound)
    as (v & mt & ms & Hv & _ & _ & Hid & Hfetch & _).
  destruct (add_record_run self question plan df_columns code new_rank thr w v
              (Some vd) Hfloor Hv Hfound) as (Hout & Hidx & _).
  exists v. split; [exact Hv|]. split; [now rewrite Hid|].
  split; [exact Hout|]. rewrite Hidx. split; intros Hr.
  - destruct (Z.ltb_spec (rank (vd_metadata vd)) new_rank); [lia | reflexivity].
  - destruct (Z.ltb_spec (rank (vd_metadata vd)) new_rank); [reflexivity | lia].
Qed.

(** C3, as the code has it. When the embedding client raises, the lookup
    raises the same exception, and so does [add_record] with a rank of at
    least 8; in both cases the index is left as it was (nothing is written)
    and the only call made is the embedding one. *)
Theorem embedding_failure_propagates
    question plan df_columns code new_rank thr match_df e w :
  vectorize (embedding_client self) question = inl e ->
  retrieve_matching_record self question df_columns thr match_df w =
    (inl e, {| index := index w; trace := trace w ++ [Vectorize question] |}) /\
  (8 <= new_rank ->
   add_record self question plan df_columns code new_rank thr w =
     (inl e, {| index := index w; trace := trace w ++ [Vectorize question] |})).
Proof.
  intros Hv. split.
  - unfold_calls. simpl. now rewrite Hv.
  - intros Hfloor. unfold add_record.
    destruct (Z.ltb_spec new_rank 8); [lia|].
    unfold_calls. simpl. now rewrite Hv.
Qed.

(** C2, as the code has it. Scenario C: the index holds one record, of
    rank 9 and columns a, b, for the question; recording the same question
    with columns x, y and rank 10 makes the lookup find nothing and writes
    the new record under the content hash of the question. When the
    record held was stored under that id it is replaced, and the index
    holds one record; two records for the question exist afterwards only
    when the record held was stored under another id. *)
Theorem scenario_C_replaces question plan code thr k v0 md0 v :
  vectorize (embedding_client self) question = inr v ->
  rank md0 = 9 -> df_col md0 = ["a"; "b"]%string -> question_txt md0 = question ->
  let w := {| index := {[ k := (v0, md0) ]}; trace := [] |} in
  let md := new_metadata question plan ["x"; "y"]%string code 10 in
  let w' := after (add_record self question plan ["x"; "y"]%string code 10 thr w) in
  outcome (retrieve_matching_record self question ["x"; "y"]%string thr true w)
    = inr None /\
  outcome (add_record self question plan ["x"; "y"]%string code 10 thr w)
    = inr tt /\
  index w' = <[record_id question := (v, md)]> {[ k := (v0, md0) ]} /\
  (k = record_id question ->
   index w' = {[ record_id question := (v, md) ]} /\
   ~ two_records_for question ["a"; "b"]%string ["x"; "y"]%string (index w')) /\
  (k <> record_id question ->
   two_records_for question ["a"; "b"]%string ["x"; "y"]%string (index w')).
Proof.
  intros Hv Hrank Hcols Hq w md w'.
  assert (Hnone : outcome (retrieve_matching_record self question
                             ["x"; "y"]%string thr true w) = inr None).
  { apply (retrieve_other_columns _ _ _ _ v Hv). intros id r Hr.
    simpl in Hr. apply lookup_singleton_Some in Hr as [_ <-]. simpl. rewrite Hcols.
    discriminate. }
  destruct (add_record_run self question plan ["x"; "y"]%string code 10 thr w v
              None ltac:(lia) Hv Hnone) as (Hout & Hidx & _).
  simpl in Hidx. fold w' md in Hidx.
  split; [exact Hnone|]. split; [exact Hout|]. split; [exact Hidx|].
  split.
  - intros ->. rewrite Hidx, insert_singleton_eq. split; [reflexivity|].
    intros (i & j & r1 & r2 & Hij & Hi & Hj & _).
    apply lookup_singleton_Some in Hi as [<- _].
    apply lookup_singleton_Some in Hj as [<- _]. now apply Hij.
  - intros Hk. exists k, (record_id question), (v0, md0), (v, md).
    rewrite Hidx. split; [exact Hk|].
    split; [rewrite lookup_insert_ne by congruence; apply lookup_singleton_eq|].
    split; [apply lookup_insert_eq|]. simpl. now rewrite Hq, Hcols.
Qed.

End Record.

(** ** The id of a record *)

(** C8, as the code has it. The id [add_record] computes from a question
    is the SHA-256 hex digest of the bytes of the question and of nothing
    else (here on the standard test vectors). A call past the floor whose
    lookup finds no record writes under that id, whatever the client, the
    index, the columns, the rank and the threshold. A call whose lookup
    finds a record writes, when the new rank is greater, under the id of
    the record found, an id the index already holds. A call below the
    floor, or one whose embedding fails, writes nothing. *)
Theorem add_record_written_id (question : string) :
  (record_id EmptyString =
     "e3b0c44298fc1c149afbf4c8996fb92427ae41e4649b934ca495991b7852b855"%string /\
   record_id "abc" =
     "ba7816bf8f01cfea414140de5dae2223b00361a396177a9cb410ff61f20015ad"%string /\
   record_id "abcdbcdecdefdefgefghfghighijhijkijkljklmklmnlmnomnopnopq" =
     "248d6a61d20638b8e5c026930c3e6039a33ce45964ff2167f6ecedd419db06c1"%string) /\
  forall C (H : EmbeddingClientIntegration C) (self : PineconeWrapper C)
         plan df_columns code new_rank thr w,
    (exists evs,
       trace (after (add_record self question plan df_columns code new_rank thr w))
         = trace w ++ evs /\
       upserted_ids evs =
         if new_rank <? 8 then []
         else
           match outcome (retrieve_matching_record self question df_columns
                            thr true w) with
           | inl _ => []
           | inr None => [record_id question]
           | inr (Some vd) =>
               if rank (vd_metadata vd) <? new_rank then [vd_id vd] else []
           end) /\
    (forall vd,
       outcome (retrieve_matching_record self question df_columns thr true w)
         = inr (Some vd) ->
       is_Some (index w !! vd_id vd)).
Proof.
  split; [repeat split; vm_compute; reflexivity|].
  intros C H self plan df_columns code new_rank thr w. split.
  - destruct (Z.ltb_spec new_rank 8) as [Hlow|Hfloor].
    { exists [Display RankBelowThreshold]. unfold add_record.
      destruct (Z.ltb_spec new_rank 8); [|lia]. split; reflexivity. }
    destruct (vectorize (embedding_client self) question) as [e|v] eqn:Hv.
    { exists [Vectorize question]. unfold add_record.
      destruct (Z.ltb_spec new_rank 8); [lia|].
      unfold_calls. simpl. rewrite Hv. split; reflexivity. }
    assert (Hret : exists found,
      outcome (retrieve_matching_record self question df_columns thr true w)
        = inr found).
    { unfold_calls. simpl. rewrite Hv. simpl.
      repeat (case_step; simpl); eexists; reflexivity. }
    destruct Hret as [found Hfound].
    destruct (add_record_run self question plan df_columns code new_rank thr w v
                found Hfloor Hv Hfound) as (_ & _ & evs & Htrace & Hids).
    exists evs. split; [exact Htrace|]. rewrite Hids, Hfound.
    destruct found as [vd|]; [reflexivity|].
    destruct (Z.ltb_spec (-1) new_rank); [reflexivity | lia].
  - intros vd Hfound.
    destruct (retrieve_found_inv self _ _ _ _ _ _ Hfound)
      as (_ & mt & _ & _ & _ & _ & Hid & Hf & _).
    rewrite Hid, Hf. eauto.
Qed.

(** From here on the id of a question is a name: nothing below depends on
    the digits of the digest. *)
Opaque record_id.

(** ** Ranks across writes *)

(** C1, at a failing input. The index holds a record of rank 10 for
    columns a, b under the id of its question. Recording the same question
    for columns x, y with rank 8 returns normally and leaves rank 8 under
    that id, whatever the index answers to the query and whatever the
    threshold: the lookup finds nothing for the new columns, the existing
    rank is taken to be -1, and the upsert replaces the record. *)
Theorem add_record_lowers_rank
    (search : gmap string (Vector * Metadata) -> Vector -> list Match) (thr : float) :
  let self := {| embedding_client := constant_client [1%float; 0%float];
                 index_search := search |} in
  let r := add_record self how_many_rows "P2" ["x"; "y"]%string "C2" 8 thr
             rank_10_world in
  stored_rank (index rank_10_world) (record_id how_many_rows) = Some 10 /\
  outcome r = inr tt /\
  stored_rank (index (after r)) (record_id how_many_rows) = Some 8.
Proof.
  intros self r.
  assert (Hv : vectorize (embedding_client self) how_many_rows = inr [1%float; 0%float])
    by reflexivity.
  assert (Hnone : outcome (retrieve_matching_record self how_many_rows
                             ["x"; "y"]%string thr true rank_10_world) = inr None).
  { apply (retrieve_other_columns self _ _ _ _ _ Hv). intros id rec Hrec.
    unfold rank_10_world in Hrec. cbn [index] in Hrec.
    apply lookup_singleton_Some in Hrec as [_ <-].
    cbn [snd new_metadata df_col]. discriminate. }
  destruct (add_record_run self how_many_rows "P2" ["x"; "y"]%string "C2" 8 thr
              rank_10_world _ None ltac:(lia) Hv Hnone) as (Hout & Hidx & _).
  fold r in Hout, Hidx. change (-1 <? 8) with true in Hidx. cbv iota in Hidx.
  split; [|split; [exact Hout|]].
  - unfold stored_rank, rank_10_world. cbn [index].
    now rewrite lookup_singleton_eq.
  - unfold stored_rank. rewrite Hidx. now rewrite lookup_insert_eq.
Qed.

(** ** The scenarios, run *)

(** Scenario A: one record, of rank 9, is created under the id of the
    question, and the lookup then returns it. *)
Example scenario_A_index :
  index scenario_A =
    {[ record_id how_many_rows :=
         ([1%float; 0%float], new_metadata how_many_rows "P1" ["a"; "b"]%string "C1" 9) ]} /\
  outcome (retrieve_matching_record sample_wrapper how_many_rows
             ["a"; "b"]%string 0.9%float true scenario_A) =
    inr (Some {| vd_id := record_id how_many_rows; vd_values := [1%float; 0%float];
                 vd_metadata :=
                   new_metadata how_many_rows "P1" ["a"; "b"]%string "C1" 9 |}).
Proof.
  split; [|vm_compute; reflexivity].
  apply (add_record_first sample_wrapper); [lia | reflexivity | reflexivity].
Qed.

(** The index of [rank_10_world] is what recording the question with rank
    10 on an empty index leaves. *)
Example rank_10_world_written :
  index (after (add_record sample_wrapper how_many_rows "P1" ["a"; "b"]%string
                  "C1" 10 0.9%float empty_world)) = index rank_10_world.
Proof.
  apply (add_record_first sample_wrapper); [lia | reflexivity | reflexivity].
Qed.

(** Scenario B: a rank of 7 changes nothing. *)
Example scenario_B_index :
  index (after (add_record sample_wrapper how_many_rows "P3" ["a"; "b"]%string
                  "C3" 7 0.9%float scenario_A)) = index scenario_A.
Proof. reflexivity. Qed.

(** C2, at Scenario C as the specification runs it. After Scenario A the
    lookup for columns x, y finds nothing, and the record of rank 10 is
    written under the id the record of rank 9 is stored under: the index
    holds one record, not two. *)
Lemma scenario_C_one_record :
  outcome (retrieve_matching_record sample_wrapper how_many_rows
             ["x"; "y"]%string 0.9%float true scenario_A) = inr None /\
  index scenario_C =
    {[ record_id how_many_rows :=
         ([1%float; 0%float], new_metadata how_many_rows "P2" ["x"; "y"]%string "C2" 10) ]} /\
  ~ two_records_for how_many_rows ["a"; "b"]%string ["x"; "y"]%string
      (index scenario_C).
Proof.
  assert (Hnone : outcome (retrieve_matching_record sample_wrapper how_many_rows
                             ["x"; "y"]%string 0.9%float true scenario_A) =
                  inr None) by (vm_compute; reflexivity).
  assert (Hidx : index scenario_C =
    {[ record_id how_many_rows :=
         ([1%float; 0%float], new_metadata how_many_rows "P2" ["x"; "y"]%string "C2" 10) ]}).
  { assert (Hv : vectorize (embedding_client sample_wrapper) how_many_rows =
                   inr [1%float; 0%float]) by reflexivity.
    destruct (add_record_run sample_wrapper how_many_rows "P2" ["x"; "y"]%string
                "C2" 10 0.9%float scenario_A [1%float; 0%float] None ltac:(lia)
                Hv Hnone) as (_ & Hidx & _).
    unfold scenario_C. rewrite Hidx.
    change (-1 <? 10) with true. cbv iota.
    rewrite (proj1 scenario_A_index). apply insert_singleton_eq. }
  split; [exact Hnone|]. split; [exact Hidx|].
  rewrite Hidx. intros (i & j & r1 & r2 & Hij & Hi & Hj & _).
  apply lookup_singleton_Some in Hi as [<- _].
  apply lookup_singleton_Some in Hj as [<- _]. now apply Hij.
Qed.

(** C3, at an unreachable backend. The client raises, and neither does the
    lookup return [None] nor does [add_record] return: both raise. *)
Lemma embedding_failure_not_absorbed :
  vectorize (embedding_client offline_wrapper) how_many_rows =
    inl (Exception "embedding backend unreachable") /\
  outcome (retrieve_matching_record offline_wrapper how_many_rows
             ["a"; "b"]%string 0.9%float true empty_world) <> inr None /\
  outcome (add_record offline_wrapper how_many_rows "P1" ["a"; "b"]%string "C1" 9
             0.9%float empty_world) <> inr tt.
Proof. split; [reflexivity|]. split; vm_compute; discriminate. Qed.

(** ** The theorems at concrete inputs *)

(** C9 at an index that answers with an id it does not hold. *)
Lemma retrieve_matching_record_missing_id_witness :
  outcome (fetch_record "gone" empty_world) = inr None /\
  outcome (retrieve_matching_record stale_wrapper how_many_rows
             ["a"; "b"]%string 0.9%float true empty_world) = inr None.
Proof.
  apply (retrieve_matching_record_missing_id stale_wrapper how_many_rows
           ["a"; "b"]%string 0.9%float true empty_world [1%float; 0%float]
           {| m_id := "gone"; m_score := 1%float |} []); reflexivity.
Defined.

(** C4 at a score equal to the threshold, at a score of 1 over a threshold
    of 0.9, and at a score of 1 under a threshold of 1.1. *)
Lemma check_similarity_boundary_witness :
  outcome (check_similarity {| m_id := "gone"; m_score := 1%float |} 1%float
             empty_world) = inr true /\
  outcome (check_similarity {| m_id := "gone"; m_score := 1%float |} 0.9%float
             empty_world) = inr true /\
  outcome (retrieve_matching_record stale_wrapper how_many_rows
             ["a"; "b"]%string 1.1%float true empty_world) = inr None.
Proof.
  split; [|split].
  - destruct (check_similarity_boundary stale_wrapper
                {| m_id := "gone"; m_score := 1%float |} 1%float empty_world)
      as (_ & _ & _ & _ & Hequal & _).
    apply Hequal. reflexivity.
  - destruct (check_similarity_boundary stale_wrapper
                {| m_id := "gone"; m_score := 1%float |} 0.9%float empty_world)
      as (_ & _ & Hordered & _).
    apply Hordered; reflexivity.
  - destruct (check_similarity_boundary stale_wrapper
                {| m_id := "gone"; m_score := 1%float |} 1.1%float empty_world)
      as (_ & _ & _ & _ & _ & Hbelow).
    apply (Hbelow how_many_rows ["a"; "b"]%string true [1%float; 0%float] []);
      reflexivity.
Defined.

(** C7 at a record stored for columns a, b and looked up for columns x, y,
    with and without [match_df]. *)
Lemma retrieve_matching_record_schema_gate_witness :
  outcome (retrieve_matching_record sample_wrapper how_many_rows
             ["x"; "y"]%string 0.9%float true rank_10_world) = inr None /\
  outcome (retrieve_matching_record sample_wrapper how_many_rows
             ["x"; "y"]%string 0.9%float false rank_10_world) =
    inr (Some {| vd_id := record_id how_many_rows; vd_values := [1%float; 0%float];
                 vd_metadata :=
                   new_metadata how_many_rows "P1" ["a"; "b"]%string "C1" 10 |}).
Proof.
  assert (Hs : index_search sample_wrapper (index rank_10_world) [1%float; 0%float] =
               [{| m_id := record_id how_many_rows;
                   m_score := dot [1%float; 0%float] [1%float; 0%float] |}])
    by (vm_compute; reflexivity).
  assert (Hv : vectorize (embedding_client sample_wrapper) how_many_rows =
               inr [1%float; 0%float]) by reflexivity.
  assert (Hle : (m_score {| m_id := record_id how_many_rows;
                            m_score := dot [1%float; 0%float] [1%float; 0%float] |}
                 <? 0.9)%float = false)
    by (vm_compute; reflexivity).
  assert (Hf : index rank_10_world !!
                 m_id {| m_id := record_id how_many_rows;
                         m_score := dot [1%float; 0%float] [1%float; 0%float] |} =
               Some ([1%float; 0%float],
                     new_metadata how_many_rows "P1" ["a"; "b"]%string "C1" 10))
    by apply lookup_singleton_eq.
  destruct (retrieve_matching_record_schema_gate sample_wrapper how_many_rows
              ["x"; "y"]%string 0.9%float rank_10_world [1%float; 0%float]
              {| m_id := record_id how_many_rows;
                 m_score := dot [1%float; 0%float] [1%float; 0%float] |} []
              [1%float; 0%float] (new_metadata how_many_rows "P1" ["a"; "b"]%string "C1" 10)
              Hv Hs Hle Hf)
    as (_ & Hne & _ & Hany).
  split; [apply Hne; discriminate | exact Hany].
Defined.

(** C5 at rank 7. *)
Lemma add_record_below_floor_witness :
  add_record sample_wrapper how_many_rows "P3" ["a"; "b"]%string "C3" 7
    0.9%float rank_10_world =
  (inr tt, {| index := index rank_10_world;
              trace := [Display RankBelowThreshold] |}).
Proof.
  apply (add_record_below_floor sample_wrapper how_many_rows "P3"
           ["a"; "b"]%string "C3" 7 0.9%float rank_10_world).
  lia.
Defined.

(** C3 at an unreachable backend and rank 9. *)
Lemma embedding_failure_propagates_witness :
  retrieve_matching_record offline_wrapper how_many_rows ["a"; "b"]%string
    0.9%float true empty_world =
    (inl (Exception "embedding backend unreachable"),
     {| index := ∅; trace := [Vectorize how_many_rows] |}) /\
  add_record offline_wrapper how_many_rows "P1" ["a"; "b"]%string "C1" 9
    0.9%float empty_world =
    (inl (Exception "embedding backend unreachable"),
     {| index := ∅; trace := [Vectorize how_many_rows] |}).
Proof.
  assert (Hv : vectorize (embedding_client offline_wrapper) how_many_rows =
               inl (Exception "embedding backend unreachable")) by reflexivity.
  destruct (embedding_failure_propagates offline_wrapper how_many_rows "P1"
              ["a"; "b"]%string "C1" 9 0.9%float true
              (Exception "embedding backend unreachable") empty_world Hv)
    as [Hlookup Hrecord].
  split; [exact Hlookup | apply Hrecord; lia].
Defined.

(** C6 at a stored rank of 10, with new ranks 10 (kept) and 11 (replaced). *)
Lemma add_record_rank_replacement_witness :
  index (after (add_record sample_wrapper how_many_rows "P2" ["a"; "b"]%string
                  "C2" 10 0.9%float rank_10_world)) = index rank_10_world /\
  exists v,
    vectorize (embedding_client sample_wrapper) how_many_rows = inr v /\
    index (after (add_record sample_wrapper how_many_rows "P2" ["a"; "b"]%string
                    "C2" 11 0.9%float rank_10_world)) =
      <[record_id how_many_rows :=
          (v, {| plan := "P2"; df_col := ["a"; "b"]%string;
                 question_txt := how_many_rows; code := "C2"; rank := 11 |})]>
        (index rank_10_world).
Proof.
  assert (Hfound :
    outcome (retrieve_matching_record sample_wrapper how_many_rows
               ["a"; "b"]%string 0.9%float true rank_10_world) =
    inr (Some {| vd_id := record_id how_many_rows; vd_values := [1%float; 0%float];
                 vd_metadata :=
                   new_metadata how_many_rows "P1" ["a"; "b"]%string "C1" 10 |}))
    by (vm_compute; reflexivity).
  split.
  - destruct (add_record_rank_replacement sample_wrapper how_many_rows "P2"
                ["a"; "b"]%string "C2" 10 0.9%float rank_10_world _
                ltac:(lia) Hfound) as (_ & _ & _ & _ & Hkeep & _).
    apply Hkeep. cbn [rank vd_metadata new_metadata]. lia.
  - destruct (add_record_rank_replacement sample_wrapper how_many_rows "P2"
                ["a"; "b"]%string "C2" 11 0.9%float rank_10_world _
                ltac:(lia) Hfound) as (v & Hv & _ & _ & _ & Hreplace).
    exists v. split; [exact Hv|].
    apply Hreplace. cbn [rank vd_metadata new_metadata]. lia.
Defined.

(** C2 at the record Scenario A leaves, stored under the id of the
    question. *)
Lemma scenario_C_replaces_witness :
  index (after (add_record sample_wrapper how_many_rows "P2" ["x"; "y"]%string
                  "C2" 10 0.9%float
                  {| index := {[ record_id how_many_rows :=
                                   ([1%float; 0%float],
                                    new_metadata how_many_rows "P1"
                                      ["a"; "b"]%string "C1" 9) ]};
                     trace := [] |})) =
    {[ record_id how_many_rows :=
         ([1%float; 0%float],
          new_metadata how_many_rows "P2" ["x"; "y"]%string "C2" 10) ]} /\
  outcome (add_record sample_wrapper how_many_rows "P2" ["x"; "y"]%string
             "C2" 10 0.9%float
             {| index := {[ record_id how_many_rows :=
                              ([1%float; 0%float],
                               new_metadata how_many_rows "P1"
                                 ["a"; "b"]%string "C1" 9) ]};
                trace := [] |}) = inr tt.
Proof.
  assert (Hv : vectorize (embedding_client sample_wrapper) how_many_rows =
               inr [1%float; 0%float]) by reflexivity.
  destruct (scenario_C_replaces sample_wrapper how_many_rows "P2" "C2"
              0.9%float (record_id how_many_rows) [1%float; 0%float]
              (new_metadata how_many_rows "P1" ["a"; "b"]%string "C1" 9)
              [1%float; 0%float] Hv eq_refl eq_refl eq_refl)
    as (_ & Hout & _ & Hsame & _).
  split; [exact (proj1 (Hsame eq_refl)) | exact Hout].
Defined.

(** ** What the lookup returns, what a record call writes *)

Section Behaviour.
Context {C : Type} `{EmbeddingClientIntegration C}.
Variable self : PineconeWrapper C.

(** Once the question is embedded, the lookup returns. *)
Lemma retrieve_returns question df_columns thr match_df w v :
  vectorize (embedding_client self) question = inr v ->
  exists found,
    outcome (retrieve_matching_record self question df_columns thr match_df w)
      = inr found.
Proof.
  intros Hv. unfold_calls. simpl. rewrite Hv. simpl.
  repeat (case_step; simpl); eexists; reflexivity.
Qed.

(** The ways a record call can end: the index as it was, or one upsert of
    the caller's values, under the content hash of the question when the
    lookup found nothing, under the id of the record found when its rank
    is below the new one. *)
Lemma add_record_cases question plan df_columns code new_rank thr w :
  let r := add_record self question plan df_columns code new_rank thr w in
  let md := new_metadata question plan df_columns code new_rank in
  index (after r) = index w \/
  (8 <= new_rank /\
   exists v,
     vectorize (embedding_client self) question = inr v /\
     ((outcome (retrieve_matching_record self question df_columns thr true w)
         = inr None /\
       index (after r) = <[record_id question := (v, md)]> (index w)) \/
      (exists vd,
         outcome (retrieve_matching_record self question df_columns thr true w)
           = inr (Some vd) /\
         rank (vd_metadata vd) < new_rank /\
         index (after r) = <[vd_id vd := (v, md)]> (index w)))).
Proof.
  cbv zeta.
  destruct (Z.ltb_spec new_rank 8) as [Hlow|Hfloor].
  { left. unfold add_record. destruct (Z.ltb_spec new_rank 8); [reflexivity|lia]. }
  destruct (vectorize (embedding_client self) question) as [e|v] eqn:Hv.
  { left. unfold add_record. destruct (Z.ltb_spec new_rank 8); [lia|].
    unfold_calls. simpl. now rewrite Hv. }
  destruct (retrieve_returns question df_columns thr true w v Hv) as [found Hfound].
  destruct (add_record_run self question plan df_columns code new_rank thr w v
              found Hfloor Hv Hfound) as (_ & Hidx & _).
  destruct found as [vd|].
  - destruct (Z.ltb_spec (rank (vd_metadata vd)) new_rank) as [Hlt|Hge].
    + right. split; [exact Hfloor|]. exists v. split; [reflexivity|].
      right. exists vd. auto.
    + left. exact Hidx.
  - destruct (Z.ltb_spec (-1) new_rank) as [_|]; [|lia].
    right. split; [exact Hfloor|]. exists v. split; [reflexivity|].
    left. auto.
Qed.

(** The lookup returns the record stored under the id of a top match that
    passes both gates. *)
Lemma retrieve_found_intro question df_columns thr match_df w v mt ms vals md :
  vectorize (embedding_client self) question = inr v ->
  index_search self (index w) v = mt :: ms ->
  (m_score mt <? thr)%float = false ->
  index w !! m_id mt = Some (vals, md) ->
  (match_df = true -> df_col md = df_columns) ->
  outcome (retrieve_matching_record self question df_columns thr match_df w)
    = inr (Some {| vd_id := m_id mt; vd_values := vals; vd_metadata := md |}).
Proof.
  intros Hv Hs Hle Hf Hcols.
  unfold_calls. simpl. rewrite Hv. simpl. rewrite Hs. simpl.
  rewrite Hle. simpl.
  rewrite Hf. simpl. destruct match_df; [|reflexivity].
  destruct (decide _) as [_|Hne]; [reflexivity|]. now destruct Hne; apply Hcols.
Qed.

(** X2. What the lookup returns: it returns a record exactly when the
    question is embedded, the index answers the query with a top match that
    passes the similarity gate (the float test [score < threshold] fails,
    as it does for a score of at least the threshold and for NaN), the
    index holds a record under the id of that match and, with [match_df],
    that record was stored for the caller's columns; the record returned is
    then the one stored, with its id, values and metadata. *)
Theorem retrieve_matching_record_some_iff
    question df_columns thr match_df w vd :
  outcome (retrieve_matching_record self question df_columns thr match_df w)
    = inr (Some vd) <->
  exists v mt ms,
    vectorize (embedding_client self) question = inr v /\
    index_search self (index w) v = mt :: ms /\
    (m_score mt <? thr)%float = false /\
    vd_id vd = m_id mt /\
    index w !! m_id mt = Some (vd_values vd, vd_metadata vd) /\
    (match_df = true -> df_col (vd_metadata vd) = df_columns).
Proof.
  split; [apply retrieve_found_inv|].
  intros (v & mt & ms & Hv & Hs & Hle & Hid & Hf & Hcols).
  destruct vd as [id vals md]. simpl in *. subst id.
  exact (retrieve_found_intro _ _ _ _ _ _ _ _ _ _ Hv Hs Hle Hf Hcols).
Qed.

(** X3. On an empty index the lookup returns [None] whatever the index
    answers to the query, stale matches included, and whatever the
    threshold and the [match_df] flag. *)
Theorem retrieve_matching_record_empty_index
    question df_columns thr match_df w v :
  vectorize (embedding_client self) question = inr v ->
  index w = ∅ ->
  outcome (retrieve_matching_record self question df_columns thr match_df w)
    = inr None.
Proof.
  intros Hv Hempty. unfold_calls. simpl. rewrite Hv. simpl. rewrite Hempty.
  repeat (case_step; simpl); try reflexivity.
  all: match goal with Hl : ∅ !! _ = Some _ |- _ =>
         rewrite lookup_empty in Hl; discriminate end.
Qed.

(** X4. A record call never deletes and touches at most one id: every
    record stored before the call is still stored under its id after it,
    records under all ids but one are exactly as they were, and the index
    grows by at most one record; this holds on every path, the raising
    ones included. *)
Theorem add_record_frame question plan df_columns code new_rank thr w :
  let w' := after (add_record self question plan df_columns code new_rank thr w) in
  (forall id, is_Some (index w !! id) -> is_Some (index w' !! id)) /\
  (exists written, forall id, id <> written -> index w' !! id = index w !! id) /\
  (size (index w') <= S (size (index w)))%nat.
Proof.
  cbv zeta.
  assert (Hins : forall (k : string) (x : Vector * Metadata)
                        (m m' : gmap string (Vector * Metadata)),
    m' = <[k := x]> m ->
    (forall id, is_Some (m !! id) -> is_Some (m' !! id)) /\
    (exists written, forall id, id <> written -> m' !! id = m !! id) /\
    (size m' <= S (size m))%nat).
  { intros k x m m' ->. split; [|split].
    - intros id Hid. destruct (decide (k = id)) as [->|Hne].
      + rewrite lookup_insert_eq. eauto.
      + now rewrite lookup_insert_ne.
    - exists k. intros id Hne. now rewrite lookup_insert_ne.
    - destruct (m !! k) eqn:Hk.
      + rewrite map_size_insert_Some by eauto. lia.
      + rewrite map_size_insert_None by exact Hk. lia. }
  destruct (add_record_cases question plan df_columns code new_rank thr w)
    as [Hsame | (_ & v & _ & [[_ Hidx] | (vd & _ & _ & Hidx)])].
  - rewrite Hsame. split; [auto|]. split; [|lia].
    exists EmptyString. reflexivity.
  - exact (Hins _ _ _ _ Hidx).
  - exact (Hins _ _ _ _ Hidx).
Qed.

(** X5. The admission floor is an invariant of the index: when every
    stored rank is at least 8 before a record call, every stored rank is at
    least 8 after it. *)
Theorem add_record_keeps_floor question plan df_columns code new_rank thr w :
  (forall id r, index w !! id = Some r -> 8 <= rank (snd r)) ->
  forall id r,
    index (after (add_record self question plan df_columns code new_rank thr w))
      !! id = Some r ->
    8 <= rank (snd r).
Proof.
  intros Hinv id r.
  destruct (add_record_cases question plan df_columns code new_rank thr w)
    as [Hsame | (Hfloor & v & _ & [[_ Hidx] | (vd & _ & _ & Hidx)])].
  - rewrite Hsame. apply Hinv.
  - rewrite Hidx. intros Hr. apply lookup_insert_Some in Hr as [[_ <-] | [_ Hr]].
    + exact Hfloor.
    + exact (Hinv _ _ Hr).
  - rewrite Hidx. intros Hr. apply lookup_insert_Some in Hr as [[_ <-] | [_ Hr]].
    + exact Hfloor.
    + exact (Hinv _ _ Hr).
Qed.

(** X6. Ranks do not go down when the id of the question is free: if no
    record is stored under the content hash of the question, a record call
    leaves under every id a rank at least as great as the one stored there
    before. *)
Theorem add_record_rank_monotone_free_id
    question plan df_columns code new_rank thr w :
  index w !! record_id question = None ->
  forall id old,
    stored_rank (index w) id = Some old ->
    exists new,
      stored_rank
        (index (after (add_record self question plan df_columns code new_rank
                         thr w))) id = Some new /\
      old <= new.
Proof.
  intros Hfree id old Hold. unfold stored_rank in *.
  destruct (add_record_cases question plan df_columns code new_rank thr w)
    as [Hsame | (Hfloor & v & _ & [[_ Hidx] | (vd & Hfound & Hlt & Hidx)])].
  - rewrite Hsame. exists old. split; [exact Hold | lia].
  - rewrite Hidx. exists old. split; [|lia].
    rewrite lookup_insert_ne; [exact Hold|].
    intros <-. rewrite Hfree in Hold. discriminate.
  - rewrite Hidx.
    destruct (retrieve_found_inv self _ _ _ _ _ _ Hfound)
      as (_ & mt & _ & _ & _ & _ & Hid & Hf & _).
    rewrite <- Hid in Hf.
    destruct (decide (vd_id vd = id)) as [<-|Hne].
    + rewrite lookup_insert_eq. rewrite Hf in Hold. simpl in *.
      injection Hold as <-. exists new_rank. split; [reflexivity | lia].
    + rewrite lookup_insert_ne by exact Hne. exists old. split; [exact Hold | lia].
Qed.

(** X7. The columns of a record change only under the content hash of the
    question recorded: under any other id, a record stored before the call
    is stored after it with the same [df_col] (a record taken over by its
    id keeps its columns, though not its question, plan and code). *)
Theorem add_record_keeps_columns question plan df_columns code new_rank thr w :
  forall id r,
    id <> record_id question ->
    index w !! id = Some r ->
    exists r',
      index (after (add_record self question plan df_columns code new_rank thr w))
        !! id = Some r' /\
      df_col (snd r') = df_col (snd r).
Proof.
  intros id r Hid Hr.
  destruct (add_record_cases question plan df_columns code new_rank thr w)
    as [Hsame | (Hfloor & v & _ & [[_ Hidx] | (vd & Hfound & Hlt & Hidx)])].
  - rewrite Hsame. eauto.
  - rewrite Hidx, lookup_insert_ne by congruence. eauto.
  - rewrite Hidx.
    destruct (retrieve_found_inv self _ _ _ _ _ _ Hfound)
      as (_ & mt & _ & _ & _ & _ & Hvid & Hf & Hcols).
    rewrite <- Hvid in Hf.
    destruct (decide (vd_id vd = id)) as [<-|Hne].
    + rewrite lookup_insert_eq. eexists. split; [reflexivity|].
      rewrite Hf in Hr. injection Hr as <-. simpl. symmetry. now apply Hcols.
    + rewrite lookup_insert_ne by exact Hne. eauto.
Qed.

(** X8. A record call past the floor asks for the embedding of the
    question twice, once itself and once in its lookup, before the one
    query it makes; nothing after that query embeds or queries again. *)
Theorem add_record_embeds_twice question plan df_columns code new_rank thr w v :
  8 <= new_rank ->
  vectorize (embedding_client self) question = inr v ->
  exists evs,
    trace (after (add_record self question plan df_columns code new_rank thr w))
      = trace w ++ [Vectorize question; Vectorize question; Query v] ++ evs /\
    forallb (fun ev => negb (is_vectorize ev || is_query ev)) evs = true.
Proof.
  intros Hfloor Hv. unfold add_record.
  destruct (Z.ltb_spec new_rank 8) as [|_]; [lia|].
  unfold_calls. simpl. rewrite !Hv. simpl.
  repeat (case_step; simpl);
    try destruct (_ <? new_rank); simpl;
    rewrite <- ?app_assoc; simpl;
    eexists; (split; [reflexivity | reflexivity]).
Qed.

(** X9. Write, then read: after a record call that wrote (the rank it
    compared with is below the new one), if the index answers the query for
    the question with the id written as its top match, at a score that is
    not below the threshold, the lookup returns exactly what was written: that
    id, the embedding of the question and the caller's plan, columns,
    question, code and rank. *)
Theorem add_record_then_retrieve
    question plan df_columns code new_rank thr thr' match_df w v found s ms :
  8 <= new_rank ->
  vectorize (embedding_client self) question = inr v ->
  outcome (retrieve_matching_record self question df_columns thr true w)
    = inr found ->
  vector_rank_of found < new_rank ->
  let w' := after (add_record self question plan df_columns code new_rank thr w) in
  index_search self (index w') v
    = {| m_id := id_of question found; m_score := s |} :: ms ->
  (s <? thr')%float = false ->
  outcome (retrieve_matching_record self question df_columns thr' match_df w')
    = inr (Some {| vd_id := id_of question found; vd_values := v;
                   vd_metadata :=
                     new_metadata question plan df_columns code new_rank |}).
Proof.
  intros Hfloor Hv Hfound Hlt w' Hs Hle.
  destruct (add_record_run self question plan df_columns code new_rank thr w v
              found Hfloor Hv Hfound) as (_ & Hidx & _).
  fold (vector_rank_of found) (id_of question found) w' in Hidx.
  destruct (Z.ltb_spec (vector_rank_of found) new_rank); [|lia].
  apply (retrieve_found_intro question df_columns thr' match_df w' v
           {| m_id := id_of question found; m_score := s |} ms); auto.
  cbn [m_id]. rewrite Hidx. apply lookup_insert_eq.
Qed.

(** X10. Recording the same answer again writes nothing: after a record
    call that wrote, if the index answers the query for the question with
    the id written as its top match, at a score not below the threshold,
    the same call made again leaves the index as the first left it (the
    ranks are equal, and an equal rank does not replace). *)
Theorem add_record_again
    question plan df_columns code new_rank thr w v found s ms :
  8 <= new_rank ->
  vectorize (embedding_client self) question = inr v ->
  outcome (retrieve_matching_record self question df_columns thr true w)
    = inr found ->
  vector_rank_of found < new_rank ->
  let w' := after (add_record self question plan df_columns code new_rank thr w) in
  index_search self (index w') v
    = {| m_id := id_of question found; m_score := s |} :: ms ->
  (s <? thr)%float = false ->
  index (after (add_record self question plan df_columns code new_rank thr w'))
    = index w'.
Proof.
  intros Hfloor Hv Hfound Hlt w' Hs Hle.
  destruct (add_record_run self question plan df_columns code new_rank thr w v
              found Hfloor Hv Hfound) as (_ & Hidx & _).
  fold (vector_rank_of found) (id_of question found) w' in Hidx.
  destruct (Z.ltb_spec (vector_rank_of found) new_rank); [|lia].
  assert (Hagain :
    outcome (retrieve_matching_record self question df_columns thr true w')
    = inr (Some {| vd_id := id_of question found; vd_values := v;
                   vd_metadata :=
                     new_metadata question plan df_columns code new_rank |})).
  { apply (retrieve_found_intro question df_columns thr true w' v
             {| m_id := id_of question found; m_score := s |} ms); auto.
    cbn [m_id]. rewrite Hidx. apply lookup_insert_eq. }
  destruct (add_record_run self question plan df_columns code new_rank thr w' v
              _ Hfloor Hv Hagain) as (_ & Hidx' & _).
  rewrite Hidx'. cbn [vd_metadata new_metadata rank].
  destruct (Z.ltb_spec new_rank new_rank); [lia | reflexivity].
Qed.

(** X15. The lookup queries the index once and fetches at most once: it
    fetches the id of the top match when that match passes the similarity
    gate, and makes no other call to the index; a match below the
    threshold, or no match, costs no fetch. *)
Theorem retrieve_matching_record_index_calls
    question df_columns thr match_df w v :
  vectorize (embedding_client self) question = inr v ->
  exists evs,
    trace (after (retrieve_matching_record self question df_columns thr match_df w))
      = trace w ++ evs /\
    index_calls evs =
      match index_search self (index w) v with
      | [] => [Query v]
      | mt :: _ =>
          if (m_score mt <? thr)%float then [Query v]
          else [Query v; Fetch (m_id mt)]
      end.
Proof.
  intros Hv. unfold_calls. simpl. rewrite Hv. simpl.
  repeat (case_step; simpl);
    rewrite <- ?app_assoc; simpl;
    eexists; (split; [reflexivity | reflexivity]).
Qed.

(** X16. A record call that returns says what it did: the message it
    displays last is the notice of a rank below 8, with nothing written;
    or the notice of an added or updated id, after one upsert, of that id,
    which now holds the new rank; or the notice of a retained rank, which
    is at least the new one, with nothing written. *)
Theorem add_record_reports question plan df_columns code new_rank thr w :
  let r := add_record self question plan df_columns code new_rank thr w in
  outcome r = inr tt ->
  exists evs msg,
    trace (after r) = trace w ++ evs /\
    last_message evs = Some msg /\
    match msg with
    | RankBelowThreshold => new_rank < 8 /\ upserted_ids evs = []
    | AddedUpdated id =>
        upserted_ids evs = [id] /\
        stored_rank (index (after r)) id = Some new_rank
    | ExistingRankRetained vector_rank =>
        new_rank <= vector_rank /\ upserted_ids evs = []
    | _ => False
    end.
Proof.
  cbv zeta. unfold add_record.
  destruct (Z.ltb_spec new_rank 8) as [Hlow|Hfloor].
  { intros _. exists [Display RankBelowThreshold], RankBelowThreshold.
    repeat split; try reflexivity. exact Hlow. }
  unfold stored_rank. unfold_calls. simpl.
  destruct (vectorize (embedding_client self) question) as [e|v]; simpl;
    [discriminate|].
  repeat (case_step; simpl); intros _;
    match goal with
    | |- context [?a <? new_rank] => destruct (Z.ltb_spec a new_rank)
    end; simpl;
    rewrite <- ?app_assoc; simpl;
    eexists; eexists;
    (split; [reflexivity|]); (split; [reflexivity|]); simpl;
    rewrite ?lookup_insert_eq; repeat split; try reflexivity; lia.
Qed.

End Behaviour.

(** ** Construction *)

Lemma settings_lookup (embed_platform : string) :
  Setup.settings !! embed_platform =
    if decide (embed_platform = "hf_sentence_transformers"%string)
    then Some ("bambooai-qa-retrieval"%string, 384)
    else if decide (embed_platform = "openai"%string)
         then Some ("bambooai-qa-retrieval"%string, 1536)
         else None.
Proof.
  unfold Setup.settings.
  destruct (decide (embed_platform = "hf_sentence_transformers"%string)) as [->|Hhf].
  - apply lookup_insert_eq.
  - rewrite lookup_insert_ne by congruence.
    destruct (decide (embed_platform = "openai"%string)) as [->|Hopenai].
    + apply lookup_singleton_eq.
    + apply lookup_singleton_ne. congruence.
Qed.

(** X11. The two tables agree: [determine_index_settings] has settings for
    a platform exactly when [initialize_embedding_client] does not refuse
    it with [ValueError], and every platform with settings uses the one
    index name, bambooai-qa-retrieval. *)
Theorem settings_agree_with_clients env (embed_platform : string) acct :
  (Setup.determine_index_settings embed_platform = (None, None) <->
   exists msg,
     fst (Setup.initialize_embedding_client env embed_platform acct)
       = inl (Setup.ValueError msg)) /\
  (forall name dim,
     Setup.determine_index_settings embed_platform = (Some name, Some dim) ->
     name = "bambooai-qa-retrieval"%string).
Proof.
  unfold Setup.determine_index_settings, Setup.initialize_embedding_client,
    Setup.new_HFSentenceTransformersClient, Setup.new_OpenAIEmbeddingClient.
  rewrite settings_lookup.
  destruct (decide (embed_platform = "hf_sentence_transformers"%string)) as [->|Hhf].
  - destruct (decide _) as [Heq|_]; [discriminate Heq|].
    split; [split|].
    + discriminate.
    + destruct (Setup.sentence_transformers_installed env);
        intros [msg Hmsg]; discriminate.
    + intros name dim Hs. now injection Hs as <- _.
  - destruct (decide (embed_platform = "openai"%string)) as [->|Hopenai].
    + split; [split|].
      * discriminate.
      * destruct (Setup.OPENAI_API_KEY env); intros [msg Hmsg]; discriminate.
      * intros name dim Hs. now injection Hs as <- _.
    + split; [split|].
      * intros _. eexists. reflexivity.
      * reflexivity.
      * discriminate.
Qed.

(** X12. [ensure_index_exists] creates at most the index it is asked for
    and never touches an existing one: after it the index exists; when it
    existed before, the account is left as it was, whatever the dimension
    asked for; the other indexes are as they were; and a second call, with
    any dimension, cloud and region, changes nothing. *)
Theorem ensure_index_exists_keeps_existing
    (index_name : string) dim cloud env dim' cloud' env' acct :
  let acct1 := Setup.ensure_index_exists index_name dim cloud env acct in
  is_Some (Setup.indexes acct1 !! index_name) /\
  (is_Some (Setup.indexes acct !! index_name) -> acct1 = acct) /\
  (forall other, other <> index_name ->
     Setup.indexes acct1 !! other = Setup.indexes acct !! other) /\
  Setup.ensure_index_exists index_name dim' cloud' env' acct1 = acct1.
Proof.
  cbv zeta. unfold Setup.ensure_index_exists.
  destruct (Setup.indexes acct !! index_name) as [spec|] eqn:Hfound.
  - rewrite Hfound. repeat split; eauto.
  - cbn [Setup.indexes Setup.display Setup.displayed].
    rewrite lookup_insert_eq. repeat split; eauto.
    + intros [spec Hspec]. discriminate.
    + intros other Hne. now rewrite lookup_insert_ne.
Qed.

(** X13. Changing the platform does not change the index: once the index
    was created for a platform with settings, ensuring it for any platform
    with settings keeps the dimension of the first, since the platforms
    share the index name and an existing index is not looked into. *)
Theorem ensure_index_exists_keeps_dimension
    (platform1 platform2 : string) name1 dim1 name2 dim2 cloud env acct :
  Setup.determine_index_settings platform1 = (Some name1, Some dim1) ->
  Setup.determine_index_settings platform2 = (Some name2, Some dim2) ->
  Setup.indexes acct !! name1 = None ->
  Setup.dimension <$>
    Setup.indexes
      (Setup.ensure_index_exists name2 dim2 cloud env
         (Setup.ensure_index_exists name1 dim1 cloud env acct)) !! name2
  = Some dim1.
Proof.
  intros H1 H2 Hfree.
  assert (Hname : forall p n d,
    Setup.determine_index_settings p = (Some n, Some d) ->
    n = "bambooai-qa-retrieval"%string).
  { intros p n d. unfold Setup.determine_index_settings.
    rewrite settings_lookup. repeat destruct (decide _); intros Hs;
      try discriminate; now injection Hs as <- _. }
  rewrite (Hname _ _ _ H1) in *. rewrite (Hname _ _ _ H2).
  unfold Setup.ensure_index_exists at 2. rewrite Hfree.
  unfold Setup.ensure_index_exists.
  cbn [Setup.indexes Setup.display Setup.displayed].
  rewrite lookup_insert_eq. cbn [Setup.indexes].
  rewrite lookup_insert_eq. reflexivity.
Qed.

(** X14. [__init__] changes the account by at most the index
    bambooai-qa-retrieval, and the only exception it raises is the
    [OpenAIError] of the OpenAI client. Without a Pinecone API key (unset
    or empty) it leaves the object half-initialised and the account
    untouched. With a Pinecone key but no OPENAI_API_KEY it raises
    [OpenAIError] and creates no index. With both it builds the OpenAI
    client, whether or not sentence-transformers is installed, keeps the
    index when it exists, and otherwise creates it with the cosine metric,
    dimension 1536, on aws in us-east-1. *)
Theorem init_outcome environ acct :
  let name := "bambooai-qa-retrieval"%string in
  let r := Setup.init environ acct in
  (forall other, other <> name ->
     Setup.indexes (snd r) !! other = Setup.indexes acct !! other) /\
  (is_Some (Setup.indexes acct !! name) -> snd r = acct) /\
  (forall e, fst r = inl e -> exists msg, e = Setup.OpenAIError msg) /\
  (Setup.PINECONE_API_KEY environ = None \/
   Setup.PINECONE_API_KEY environ = Some EmptyString ->
   r = (inr (Setup.HalfInitialised (Setup.PINECONE_API_KEY environ)), acct)) /\
  (forall api_key,
     Setup.PINECONE_API_KEY environ = Some api_key -> api_key <> EmptyString ->
     Setup.OPENAI_API_KEY environ = None ->
     snd r = acct /\ exists msg, fst r = inl (Setup.OpenAIError msg)) /\
  (forall api_key openai_key,
     Setup.PINECONE_API_KEY environ = Some api_key -> api_key <> EmptyString ->
     Setup.OPENAI_API_KEY environ = Some openai_key ->
     fst r = inr (Setup.Initialised api_key "aws" "us-east-1" "openai"
                    (Some Setup.OpenAIEmbeddingClient) name 1536) /\
     (Setup.indexes acct !! name = None ->
      Setup.indexes (snd r) !! name =
        Some {| Setup.metric := "cosine"; Setup.dimension := 1536;
                Setup.spec_cloud := "aws"; Setup.spec_region := "us-east-1" |})).
Proof.
  cbv zeta. unfold Setup.init.
  destruct (Setup.PINECONE_API_KEY environ) as [[|c key]|] eqn:Hkey.
  - split; [reflexivity|]. split; [reflexivity|]. split; [discriminate|].
    split; [reflexivity|]. split; intros; congruence.
  - assert (Hset : Setup.determine_index_settings "openai" =
                   (Some "bambooai-qa-retrieval"%string, Some 1536)).
    { unfold Setup.determine_index_settings. rewrite settings_lookup.
      reflexivity. }
    assert (Hinit : Setup.initialize_embedding_client environ "openai" acct =
                    match Setup.OPENAI_API_KEY environ with
                    | Some _ => (inr (Some Setup.OpenAIEmbeddingClient), acct)
                    | None =>
                        (inl (Setup.OpenAIError
                                "The api_key client option must be set either by passing api_key to the client or by setting the OPENAI_API_KEY environment variable"),
                         acct)
                    end).
    { unfold Setup.initialize_embedding_client, Setup.new_OpenAIEmbeddingClient.
      destruct (decide _) as [_|Hne]; [|now destruct Hne].
      now destruct (Setup.OPENAI_API_KEY environ). }
    rewrite Hinit.
    destruct (Setup.OPENAI_API_KEY environ) as [openai_key|] eqn:Hopenai.
    + rewrite Hset. cbn [fst snd]. unfold Setup.ensure_index_exists.
      destruct (Setup.indexes acct !! "bambooai-qa-retrieval"%string)
        as [spec|] eqn:Hfound.
      * split; [reflexivity|]. split; [reflexivity|]. split; [discriminate|].
        split; [intros [Hk|Hk]; discriminate|].
        split; [intros; discriminate|].
        intros k ok Hk Hne _. injection Hk as <-. split; [reflexivity|].
        discriminate.
      * cbn [Setup.indexes Setup.display Setup.displayed].
        split; [intros other Hother; now rewrite lookup_insert_ne|].
        split; [intros [spec Hspec]; discriminate|].
        split; [discriminate|].
        split; [intros [Hk|Hk]; discriminate|].
        split; [intros; discriminate|].
        intros k ok Hk Hne _. injection Hk as <-. split; [reflexivity|].
        intros _. apply lookup_insert_eq.
    + cbn [fst snd].
      split; [reflexivity|]. split; [reflexivity|].
      split; [intros e He; injection He as <-; eauto|].
      split; [intros [Hk|Hk]; discriminate|].
      split; [intros k Hk Hne _; split; [reflexivity | eauto]|].
      intros; discriminate.
  - split; [reflexivity|]. split; [reflexivity|]. split; [discriminate|].
    split; [reflexivity|]. split; intros; discriminate.
Qed.

(** ** These theorems at concrete inputs *)

Lemma r1_not_a_digest : "r1"%string <> record_id how_many_rows.
Proof.
  intros Heq. apply (f_equal String.length) in Heq.
  vm_compute in Heq. discriminate.
Qed.

(** In [other_world] the lookup for the question and columns a, b finds the
    record under r1. *)
Lemma other_world_lookup :
  outcome (retrieve_matching_record sample_wrapper how_many_rows
             ["a"; "b"]%string 0.9%float true other_world) =
  inr (Some {| vd_id := "r1"; vd_values := [1%float; 0%float];
               vd_metadata :=
                 new_metadata "Count the rows" "P0" ["a"; "b"]%string "C0" 9 |}).
Proof. vm_compute. reflexivity. Qed.

(** X3 at an index that answers an empty index with a stale id. *)
Lemma retrieve_matching_record_empty_index_witness :
  outcome (retrieve_matching_record stale_wrapper how_many_rows
             ["a"; "b"]%string 0.5%float false empty_world) = inr None.
Proof.
  apply (retrieve_matching_record_empty_index stale_wrapper how_many_rows
           ["a"; "b"]%string 0.5%float false empty_world [1%float; 0%float]);
    reflexivity.
Defined.

(** X5 at a call that takes over the record under r1 with rank 10. *)
Lemma add_record_keeps_floor_witness :
  exists r,
    index (after (add_record sample_wrapper how_many_rows "P1" ["a"; "b"]%string
                    "C1" 10 0.9%float other_world)) !! "r1"%string = Some r /\
    8 <= rank (snd r).
Proof.
  assert (Hv : vectorize (embedding_client sample_wrapper) how_many_rows =
               inr [1%float; 0%float]) by reflexivity.
  destruct (add_record_run sample_wrapper how_many_rows "P1" ["a"; "b"]%string
              "C1" 10 0.9%float other_world [1%float; 0%float] _ ltac:(lia) Hv
              other_world_lookup) as (_ & Hidx & _).
  cbn [vd_metadata vd_id new_metadata rank] in Hidx.
  change (9 <? 10) with true in Hidx. cbv iota in Hidx.
  eexists. split; [rewrite Hidx; apply lookup_insert_eq|].
  apply (add_record_keeps_floor sample_wrapper how_many_rows "P1"
           ["a"; "b"]%string "C1" 10 0.9%float other_world) with (id := "r1"%string).
  - intros id r Hr. unfold other_world in Hr. cbn [index] in Hr.
    apply lookup_singleton_Some in Hr as [_ <-]. cbn [snd new_metadata rank]. lia.
  - rewrite Hidx. apply lookup_insert_eq.
Defined.

(** X6 at the same call: the id of the question is free, and the rank
    under r1 goes from 9 to at least 9. *)
Lemma add_record_rank_monotone_free_id_witness :
  exists new,
    stored_rank
      (index (after (add_record sample_wrapper how_many_rows "P1"
                       ["a"; "b"]%string "C1" 10 0.9%float other_world)))
      "r1" = Some new /\
    9 <= new.
Proof.
  apply (add_record_rank_monotone_free_id sample_wrapper how_many_rows "P1"
           ["a"; "b"]%string "C1" 10 0.9%float other_world).
  - unfold other_world. cbn [index]. apply lookup_singleton_ne.
    exact r1_not_a_digest.
  - unfold stored_rank, other_world. cbn [index].
    rewrite lookup_singleton_eq. reflexivity.
Defined.

(** X7 at the same call: the record under r1 keeps columns a, b. *)
Lemma add_record_keeps_columns_witness :
  exists r',
    index (after (add_record sample_wrapper how_many_rows "P1" ["a"; "b"]%string
                    "C1" 10 0.9%float other_world)) !! "r1"%string = Some r' /\
    df_col (snd r') =
      df_col (snd ([1%float; 0%float],
                   new_metadata "Count the rows" "P0" ["a"; "b"]%string "C0" 9)).
Proof.
  apply (add_record_keeps_columns sample_wrapper how_many_rows "P1"
           ["a"; "b"]%string "C1" 10 0.9%float other_world).
  - exact r1_not_a_digest.
  - unfold other_world. cbn [index]. apply lookup_singleton_eq.
Defined.

(** X8 at the first record on an empty index. *)
Lemma add_record_embeds_twice_witness :
  exists evs,
    trace (after (add_record sample_wrapper how_many_rows "P1" ["a"; "b"]%string
                    "C1" 9 0.9%float empty_world))
      = trace empty_world ++
        [Vectorize how_many_rows; Vectorize how_many_rows; Query [1%float; 0%float]] ++ evs /\
    forallb (fun ev => negb (is_vectorize ev || is_query ev)) evs = true.
Proof.
  apply (add_record_embeds_twice sample_wrapper how_many_rows "P1"
           ["a"; "b"]%string "C1" 9 0.9%float empty_world [1%float; 0%float]);
    [lia | reflexivity].
Defined.

(** In [other_world], after the call, the nearest record to the question is
    the one under r1. *)
Lemma other_world_nearest_after :
  index_search sample_wrapper
    (index (after (add_record sample_wrapper how_many_rows "P1" ["a"; "b"]%string
                     "C1" 10 0.9%float other_world))) [1%float; 0%float] =
  [{| m_id := "r1"; m_score := dot [1%float; 0%float] [1%float; 0%float] |}].
Proof. vm_compute. reflexivity. Qed.

(** X9 at the same call, read back with a threshold of 1/2 and without
    [match_df]. *)
Lemma add_record_then_retrieve_witness :
  outcome (retrieve_matching_record sample_wrapper how_many_rows
             ["a"; "b"]%string 0.5%float false
             (after (add_record sample_wrapper how_many_rows "P1"
                       ["a"; "b"]%string "C1" 10 0.9%float other_world))) =
  inr (Some {| vd_id := "r1"; vd_values := [1%float; 0%float];
               vd_metadata :=
                 new_metadata how_many_rows "P1" ["a"; "b"]%string "C1" 10 |}).
Proof.
  assert (Hv : vectorize (embedding_client sample_wrapper) how_many_rows =
               inr [1%float; 0%float]) by reflexivity.
  apply (add_record_then_retrieve sample_wrapper how_many_rows "P1"
           ["a"; "b"]%string "C1" 10 0.9%float 0.5%float false other_world
           [1%float; 0%float] _ (dot [1%float; 0%float] [1%float; 0%float]) [] ltac:(lia) Hv
           other_world_lookup).
  - cbn [vector_rank_of vd_metadata new_metadata rank]. lia.
  - exact other_world_nearest_after.
  - vm_compute. reflexivity.
Defined.

(** X10 at the same call, made twice. *)
Lemma add_record_again_witness :
  index (after (add_record sample_wrapper how_many_rows "P1" ["a"; "b"]%string
                  "C1" 10 0.9%float
                  (after (add_record sample_wrapper how_many_rows "P1"
                            ["a"; "b"]%string "C1" 10 0.9%float other_world)))) =
  index (after (add_record sample_wrapper how_many_rows "P1" ["a"; "b"]%string
                  "C1" 10 0.9%float other_world)).
Proof.
  assert (Hv : vectorize (embedding_client sample_wrapper) how_many_rows =
               inr [1%float; 0%float]) by reflexivity.
  apply (add_record_again sample_wrapper how_many_rows "P1"
           ["a"; "b"]%string "C1" 10 0.9%float other_world
           [1%float; 0%float] _ (dot [1%float; 0%float] [1%float; 0%float]) [] ltac:(lia) Hv
           other_world_lookup).
  - cbn [vector_rank_of vd_metadata new_metadata rank]. lia.
  - exact other_world_nearest_after.
  - vm_compute. reflexivity.
Defined.

(** X13 at an index created for sentence-transformers and ensured again
    for OpenAI: the dimension stays 384. *)
Lemma ensure_index_exists_keeps_dimension_witness :
  Setup.dimension <$>
    Setup.indexes
      (Setup.ensure_index_exists "bambooai-qa-retrieval" 1536 "aws" "us-east-1"
         (Setup.ensure_index_exists "bambooai-qa-retrieval" 384 "aws" "us-east-1"
            Setup.empty_account)) !! "bambooai-qa-retrieval"%string
  = Some 384.
Proof.
  apply (ensure_index_exists_keeps_dimension "hf_sentence_transformers" "openai"
           "bambooai-qa-retrieval" 384 "bambooai-qa-retrieval" 1536
           "aws" "us-east-1" Setup.empty_account).
  - unfold Setup.determine_index_settings. rewrite settings_lookup. reflexivity.
  - unfold Setup.determine_index_settings. rewrite settings_lookup. reflexivity.
  - apply lookup_empty.
Defined.

(** X15 at a stale match of score 1 under a threshold of 1/2: one query,
    one fetch. *)
Lemma retrieve_matching_record_index_calls_witness :
  exists evs,
    trace (after (retrieve_matching_record stale_wrapper how_many_rows
                    ["a"; "b"]%string 0.5%float true empty_world))
      = trace empty_world ++ evs /\
    index_calls evs = [Query [1%float; 0%float]; Fetch "gone"].
Proof.
  assert (Hv : vectorize (embedding_client stale_wrapper) how_many_rows =
               inr [1%float; 0%float]) by reflexivity.
  exact (retrieve_matching_record_index_calls stale_wrapper how_many_rows
           ["a"; "b"]%string 0.5%float true empty_world [1%float; 0%float] Hv).
Defined.

(** X16 at the call that takes over the record under r1. *)
Lemma add_record_reports_witness :
  exists evs msg,
    trace (after (add_record sample_wrapper how_many_rows "P1" ["a"; "b"]%string
                    "C1" 10 0.9%float other_world)) = trace other_world ++ evs /\
    last_message evs = Some msg /\
    match msg with
    | RankBelowThreshold => 10 < 8 /\ upserted_ids evs = []
    | AddedUpdated id =>
        upserted_ids evs = [id] /\
        stored_rank
          (index (after (add_record sample_wrapper how_many_rows "P1"
                           ["a"; "b"]%string "C1" 10 0.9%float other_world))) id
          = Some 10
    | ExistingRankRetained vector_rank =>
        10 <= vector_rank /\ upserted_ids evs = []
    | _ => False
    end.
Proof.
  assert (Hout : outcome (add_record sample_wrapper how_many_rows "P1"
                            ["a"; "b"]%string "C1" 10 0.9%float other_world)
                 = inr tt) by (vm_compute; reflexivity).
  exact (add_record_reports sample_wrapper how_many_rows "P1" ["a"; "b"]%string
           "C1" 10 0.9%float other_world Hout).
Defined.

(** ** The gate and the id at the inputs that decide them *)

(** C4, at NaN. A match whose score is NaN is accepted although its score
    is not at least the threshold, and so is any match under a threshold
    that is NaN. *)
Lemma check_similarity_accepts_nan :
  outcome (check_similarity {| m_id := "r1"; m_score := nan |} 0.9%float
             empty_world) = inr true /\
  (0.9 <=? nan)%float = false /\
  outcome (check_similarity {| m_id := "r1"; m_score := 0.1%float |} nan
             empty_world) = inr true /\
  (nan <=? 0.1)%float = false.
Proof. repeat split; reflexivity. Qed.

(** C8, at one question recorded on three indexes. On an empty index the
    record is written under the digest of the question; on an index whose
    nearest record was stored for the same columns it is written under the
    id of that record, r1; for other columns, or under a threshold the
    score does not reach, it is written under the digest again. *)
Lemma add_record_id_depends_on_index :
  upserted_ids
    (trace (after (add_record sample_wrapper how_many_rows "P1" ["a"; "b"]%string
                     "C1" 10 0.9%float empty_world)))
    = [record_id how_many_rows] /\
  upserted_ids
    (trace (after (add_record sample_wrapper how_many_rows "P1" ["a"; "b"]%string
                     "C1" 10 0.9%float other_world)))
    = ["r1"%string] /\
  upserted_ids
    (trace (after (add_record sample_wrapper how_many_rows "P1" ["x"; "y"]%string
                     "C1" 10 0.9%float other_world)))
    = [record_id how_many_rows] /\
  upserted_ids
    (trace (after (add_record sample_wrapper how_many_rows "P1" ["a"; "b"]%string
                     "C1" 10 1.1%float other_world)))
    = [record_id how_many_rows] /\
  "r1"%string <> record_id how_many_rows.
Proof.
  split; [vm_compute; reflexivity|]. split; [vm_compute; reflexivity|].
  split; [vm_compute; reflexivity|]. split; [vm_compute; reflexivity|].
  exact r1_not_a_digest.
Qed.

(** C8 at the call that takes over the record under r1, and at the first
    record on an empty index. *)
Lemma add_record_written_id_witness :
  (exists evs,
     trace (after (add_record sample_wrapper how_many_rows "P1" ["a"; "b"]%string
                     "C1" 10 0.9%float other_world)) = trace other_world ++ evs /\
     upserted_ids evs = ["r1"%string]) /\
  (exists evs,
     trace (after (add_record sample_wrapper how_many_rows "P1" ["a"; "b"]%string
                     "C1" 9 0.9%float empty_world)) = trace empty_world ++ evs /\
     upserted_ids evs = [record_id how_many_rows]).
Proof.
  assert (Hnone : outcome (retrieve_matching_record sample_wrapper how_many_rows
                             ["a"; "b"]%string 0.9%float true empty_world)
                  = inr None) by (vm_compute; reflexivity).
  split.
  - destruct (proj1 (proj2 (add_record_written_id how_many_rows)
                       TableClient _ sample_wrapper "P1"%string ["a"; "b"]%string
                       "C1"%string 10 0.9%float other_world))
      as (evs & Htrace & Hids).
    exists evs. split; [exact Htrace|].
    rewrite Hids, other_world_lookup. reflexivity.
  - destruct (proj1 (proj2 (add_record_written_id how_many_rows)
                       TableClient _ sample_wrapper "P1"%string ["a"; "b"]%string
                       "C1"%string 9 0.9%float empty_world))
      as (evs & Htrace & Hids).
    exists evs. split; [exact Htrace|].
    rewrite Hids, Hnone. reflexivity.
Defined.
